(** * A static-file HTTP server: model of [server.py] and its properties

    The development embeds the per-connection handler [HTTPWorker.run] of
    [server.py] together with the helpers it calls.  Python [str] values
    (here always made of Latin-1 code points, since requests are decoded as
    ISO-8859-1) are [string]; [bytes] values are [list byte].  The socket, the
    file system, the clock and the MIME table are the handler's environment
    ([World]); what the handler does to them is recorded as a trace of
    [event]s. *)

From Stdlib Require Import Strings.String Strings.Ascii Strings.Byte List Bool Arith Lia.
From Stdlib Require Import Decimal DecimalNat DecimalString.
Import ListNotations.

Local Open Scope list_scope.
Local Open Scope string_scope.

(** ** Python strings and bytes *)

Module Py.

Definition CR : ascii := "013"%char.
Definition LF : ascii := "010"%char.
Definition CRLF : string := String CR (String LF "").

Definition bCR : byte := byte_of_ascii CR.
Definition bLF : byte := byte_of_ascii LF.
Definition bCRLF : list byte := [bCR; bLF].

(** [b'...'] literals. *)
Definition bytes_lit (s : string) : list byte := list_byte_of_string s.

(** [bytes.decode('iso-8859-1')]: every byte is one character. *)
Definition decode_latin1 (data : list byte) : string :=
  string_of_list_byte data.

(** [str.encode('utf-8')] on code points below 256. *)
Definition utf8_char (c : ascii) : list byte :=
  match c with
  | Ascii _ _ _ _ _ _ _ false => [byte_of_ascii c]
  | Ascii b0 b1 b2 b3 b4 b5 b6 true =>
      [byte_of_ascii (Ascii b6 true false false false false true true);
       byte_of_ascii (Ascii b0 b1 b2 b3 b4 b5 false true)]
  end.

Fixpoint encode_utf8 (s : string) : list byte :=
  match s with
  | EmptyString => []
  | String c s' => (utf8_char c ++ encode_utf8 s')%list
  end.

(** [str(n)] for a non-negative integer. *)
Definition str (n : nat) : string := NilEmpty.string_of_uint (Nat.to_uint n).

(** [s.startswith(p)]. *)
Definition startswith (s p : string) : bool := String.prefix p s.

(** [s.endswith(c)] for a one-character suffix. *)
Fixpoint endswith_char (s : string) (c : ascii) : bool :=
  match s with
  | EmptyString => false
  | String a EmptyString => Ascii.eqb a c
  | String _ s' => endswith_char s' c
  end.

(** [s.lstrip(c)] for a one-character set: drops every leading [c]. *)
Fixpoint lstrip (c : ascii) (s : string) : string :=
  match s with
  | String a s' => if Ascii.eqb a c then lstrip c s' else s
  | EmptyString => s
  end.

Definition cons_head (a : ascii) (l : list string) : list string :=
  match l with
  | h :: t => String a h :: t
  | [] => [String a ""]
  end.

(** [s.split(c)] for a one-character separator. *)
Fixpoint split_char (c : ascii) (s : string) : list string :=
  match s with
  | EmptyString => [""]
  | String a s' =>
      if Ascii.eqb a c then "" :: split_char c s'
      else cons_head a (split_char c s')
  end.

(** [s.split('\r\n')]. *)
Fixpoint split_crlf (s : string) : list string :=
  match s with
  | EmptyString => [""]
  | String a s' =>
      match s' with
      | String a' s'' =>
          if Ascii.eqb a CR && Ascii.eqb a' LF then "" :: split_crlf s''
          else cons_head a (split_crlf s')
      | EmptyString => [String a ""]
      end
  end.

(** [c.isspace()] on Latin-1: TAB..CR, FS..US, space, NEL and NBSP. *)
Definition isspace (c : ascii) : bool :=
  let n := nat_of_ascii c in
  (((9 <=? n) && (n <=? 13)) || ((28 <=? n) && (n <=? 32))
  || (n =? 133) || (n =? 160))%nat.

(** [s.split()]: maximal runs of non-whitespace characters. *)
Fixpoint split_ws_from (cur : string) (s : string) : list string :=
  match s with
  | EmptyString => if cur =? "" then [] else [cur]
  | String c s' =>
      if isspace c then
        if cur =? "" then split_ws_from "" s'
        else cur :: split_ws_from "" s'
      else split_ws_from (cur ++ String c "") s'
  end.

Definition split_ws (s : string) : list string := split_ws_from "" s.

(** [sep.join(l)]. *)
Definition join (sep : string) (l : list string) : string :=
  String.concat sep l.

(** [needle in data] on bytes. *)
Fixpoint bytes_startswith (data p : list byte) : bool :=
  match p, data with
  | [], _ => true
  | x :: p', y :: data' => Byte.eqb x y && bytes_startswith data' p'
  | _ :: _, [] => false
  end.

Fixpoint bytes_contains (needle data : list byte) : bool :=
  match data with
  | [] => bytes_startswith [] needle
  | _ :: tl => bytes_startswith data needle || bytes_contains needle tl
  end.

End Py.

(** ** [os.path] on a POSIX host *)

Module PosixPath.
Import Py.

Definition isabs (p : string) : bool := startswith p "/".

(** [os.path.join(a, b)]. *)
Definition join (a p : string) : string :=
  if startswith p "/" then p
  else if (a =? "") || endswith_char a "/" then a ++ p
  else a ++ "/" ++ p.

(** POSIX keeps exactly two leading slashes and folds three or more
    into one. *)
Definition initial_slashes (path : string) : nat :=
  if startswith path "/" then
    if startswith path "//" && negb (startswith path "///") then 2 else 1
  else 0.

Definition is_nil {A} (l : list A) : bool :=
  match l with [] => true | _ => false end.

(** The loop of [normpath] over the components, [new_comps] being the
    list built so far. *)
Fixpoint normpath_loop (initial : nat) (comps new_comps : list string)
  : list string :=
  match comps with
  | [] => new_comps
  | comp :: rest =>
      if (comp =? "") || (comp =? ".") then
        normpath_loop initial rest new_comps
      else if negb (comp =? "..")
              || ((initial =? 0)%nat && is_nil new_comps)
              || (negb (is_nil new_comps) && (last new_comps "" =? ".."))
      then normpath_loop initial rest (new_comps ++ [comp])%list
      else if negb (is_nil new_comps) then
        normpath_loop initial rest (removelast new_comps)
      else normpath_loop initial rest new_comps
  end.

Fixpoint slashes (n : nat) : string :=
  match n with
  | O => ""
  | S k => String "/" (slashes k)
  end.

(** [os.path.normpath(path)]. *)
Definition normpath (path : string) : string :=
  if path =? "" then "."
  else
    let initial := initial_slashes path in
    let comps := normpath_loop initial (split_char "/" path) [] in
    let path' := slashes initial ++ Py.join "/" comps in
    if path' =? "" then "." else path'.

(** [os.path.abspath(path)] with the process's working directory [cwd]. *)
Definition abspath (cwd path : string) : string :=
  normpath (if isabs path then path else join cwd path).

End PosixPath.

Import Py PosixPath.

(** ** [datetime] *)

(** A reading of [datetime.now(timezone.utc)]; [weekday] counts from
    Monday as 0, [month] from January as 1. *)
Record datetime : Type := mkDatetime {
  year : nat;
  month : nat;
  day : nat;
  hour : nat;
  minute : nat;
  second : nat;
  weekday : nat
}.

(** [%d], [%H], [%M], [%S]: two digits, zero-padded. *)
Definition two_digits (n : nat) : string :=
  if (n <? 10)%nat then "0" ++ str n else str n.

(** [%a] and [%b] in the C locale. *)
Definition day_abbr (t : datetime) : string :=
  nth (weekday t) ["Mon"; "Tue"; "Wed"; "Thu"; "Fri"; "Sat"; "Sun"] "".

Definition month_abbr (t : datetime) : string :=
  nth (month t - 1)
      ["Jan"; "Feb"; "Mar"; "Apr"; "May"; "Jun";
       "Jul"; "Aug"; "Sep"; "Oct"; "Nov"; "Dec"] "".

(** [t.strftime('%a, %d %b %Y %H:%M:%S GMT')], the year having its four
    digits. *)
Definition strftime_http (t : datetime) : string :=
  day_abbr t ++ ", " ++ two_digits (day t) ++ " " ++ month_abbr t ++ " "
  ++ str (year t) ++ " " ++ two_digits (hour t) ++ ":"
  ++ two_digits (minute t) ++ ":" ++ two_digits (second t) ++ " GMT".

(** ** The handler's environment and effects *)

(** What one [recv(1024)] call on the client socket yields: some bytes (none
    when the peer has closed), the two-second timeout, or another error. *)
Inductive recv_result : Type :=
| RecvData (chunk : list byte)
| RecvTimeout
| RecvError.

(** What a path names on the file system, symbolic links followed. *)
Inductive node : Type :=
| RegularFile (content : list byte) (readable : bool)
| Directory.

(** The calls the handler makes on the file system and on the socket, in
    the order it makes them; [ok] tells whether [sendall] went through. *)
Inductive event : Type :=
| EvIsdir (p : string)
| EvExists (p : string)
| EvOpen (p : string)
| EvSendall (data : list byte) (ok : bool)
| EvClose.

Record World : Type := mkWorld {
  cwd : string;                          (* os.getcwd() *)
  fs : string -> option node;            (* the file system, by path *)
  guess_type : string -> option string;  (* mimetypes.guess_type(p)[0] *)
  clock : nat -> datetime;               (* the n-th reading of the clock *)
  sendall_ok : nat -> bool;              (* does the n-th sendall succeed *)
  inbound : list recv_result             (* results of successive recv calls;
                                            past its end the peer is silent
                                            and recv times out *)
}.

Record State : Type := mkState {
  clock_reads : nat;
  send_calls : nat;
  trace : list event
}.

Definition initial_state : State := mkState 0 0 [].

Inductive exn : Type :=
| OSError
| ValueError (msg : string).

(** How a block of statements ends: it falls through with a value, it
    executes [return], or it raises. *)
Inductive outcome (A : Type) : Type :=
| Normal (a : A)
| Returned
| Raised (e : exn).
Arguments Normal {A} a.
Arguments Returned {A}.
Arguments Raised {A} e.

Definition M (A : Type) : Type := State -> outcome A * State.

Definition ret {A} (a : A) : M A := fun st => (Normal a, st).

Definition bind {A B} (m : M A) (k : A -> M B) : M B :=
  fun st =>
    match m st with
    | (Normal a, st') => k a st'
    | (Returned, st') => (Returned, st')
    | (Raised e, st') => (Raised e, st')
    end.

Definition return_ {A} : M A := fun st => (Returned, st).
Definition raise {A} (e : exn) : M A := fun st => (Raised e, st).

Declare Scope py_scope.
Delimit Scope py_scope with py.
Notation "x <- m ;; k" := (bind m (fun x => k))
  (at level 61, m at next level, right associativity) : py_scope.
Notation "m ;; k" := (bind m (fun _ => k))
  (at level 61, right associativity) : py_scope.
Local Open Scope py_scope.

(** [if c: body] where [body] may return or raise. *)
Definition when (c : bool) (body : M unit) : M unit :=
  if c then body else ret tt.

(** [try: body / except Exception: handler]. *)
Definition try_except {A} (body : M A) (handler : exn -> M A) : M A :=
  fun st =>
    match body st with
    | (Raised e, st') => handler e st'
    | r => r
    end.

(** [try: body / finally: final]: [final] runs however [body] ends, and its
    own [return] or exception replaces the outcome of [body]. *)
Definition try_finally {A} (body : M A) (final : M unit) : M A :=
  fun st =>
    match body st with
    | (r, st') =>
        match final st' with
        | (Normal _, st'') => (r, st'')
        | (Returned, st'') => (Returned, st'')
        | (Raised e, st'') => (Raised e, st'')
        end
    end.

Definition log (e : event) : M unit :=
  fun st => (Normal tt,
             mkState (clock_reads st) (send_calls st) (trace st ++ [e])%list).

(** ** [server.py] *)

Definition SERVER_NAME : string := "NikkiGorskiServer/1.0".

Section Handler.

Variable w : World.

(** [http_date()]: the clock is read anew at every call. *)
Definition http_date : M string :=
  fun st => (Normal (strftime_http (clock w (clock_reads st))),
             mkState (S (clock_reads st)) (send_calls st) (trace st)).

Definition os_path_isdir (p : string) : M bool :=
  log (EvIsdir p) ;;
  ret (match fs w p with Some Directory => true | _ => false end).

Definition os_path_exists (p : string) : M bool :=
  log (EvExists p) ;;
  ret (match fs w p with Some _ => true | None => false end).

(** [with open(p, 'rb') as f: body = f.read()]. *)
Definition open_read (p : string) : M (list byte) :=
  log (EvOpen p) ;;
  match fs w p with
  | Some (RegularFile content true) => ret content
  | _ => raise OSError
  end.

(** [self.clientsocket.sendall(data)]. *)
Definition sendall (data : list byte) : M unit :=
  fun st =>
    let ok := sendall_ok w (send_calls st) in
    let st' := mkState (clock_reads st) (S (send_calls st))
                       (trace st ++ [EvSendall data ok])%list in
    if ok then (Normal tt, st') else (Raised OSError, st').

(** [self.clientsocket.close()]. *)
Definition close : M unit := log EvClose.

(** The [while] loop of [_recv_request]; [None] is an error other than
    the timeout. *)
Fixpoint recv_loop (pending : list recv_result) (data : list byte)
  : option (list byte) :=
  if negb (bytes_contains (bCRLF ++ bCRLF)%list data) then
    match pending with
    | RecvData [] :: _ => Some data
    | RecvData chunk :: rest => recv_loop rest (data ++ chunk)%list
    | RecvTimeout :: _ => Some data
    | RecvError :: _ => None
    | [] => Some data
    end
  else Some data.

(** What [_recv_request] returns: [None] where Python returns [None];
    the socket is touched by nothing else than these [recv] calls. *)
Definition read_request : option string :=
  match recv_loop (inbound w) [] with
  | None => None
  | Some [] => Some ""
  | Some data => Some (decode_latin1 data)
  end.

Definition _recv_request : M (option string) := ret read_request.

(** [not request]. *)
Definition not_ (request : option string) : bool :=
  match request with
  | None => true
  | Some s => s =? ""
  end.

Definition text_of (request : option string) : string :=
  match request with Some s => s | None => "" end.

Definition _parse_request_line (request_text : string)
  : M (string * string * string) :=
  let lines := split_crlf request_text in
  if (length lines =? 0)%nat || (nth 0 lines "" =? "") then
    raise (ValueError "Empty request")
  else
    let parts := split_ws (nth 0 lines "") in
    if (length parts <? 3)%nat then
      raise (ValueError "Invalid request line format")
    else ret (nth 0 parts "", nth 1 parts "", nth 2 parts "").

(** The [body] argument of [_send_response] is [bytes] at every call of
    this file, and the function also takes a [str]. *)
Inductive body_arg : Type :=
| BodyBytes (data : list byte)
| BodyStr (text : string).

Definition reason_of (status_code : nat) : string :=
  match find (fun kv => (fst kv =? status_code)%nat)
             [(200, "OK"); (404, "Not Found");
              (500, "Internal Server Error"); (405, "Method Not Allowed")]
  with
  | Some kv => snd kv
  | None => "OK"
  end.

Definition header_lines (status_code : nat) (body : list byte)
           (content_type date : string) : list string :=
  [ "HTTP/1.1 " ++ str status_code ++ " " ++ reason_of status_code;
    "Date: " ++ date;
    "Server: " ++ SERVER_NAME;
    "Content-Type: " ++ content_type;
    "Content-Length: " ++ str (length body);
    CRLF ].

(** The bytes [header + body] handed to [sendall]. *)
Definition response_bytes (status_code : nat) (body : list byte)
           (content_type date : string) : list byte :=
  (encode_utf8 (Py.join CRLF (header_lines status_code body content_type date))
   ++ body)%list.

Definition _send_response (status_code : nat) (body : body_arg)
           (content_type : string) : M unit :=
  let body := match body with
              | BodyStr text => encode_utf8 text
              | BodyBytes data => data
              end in
  date <- http_date ;;
  sendall (response_bytes status_code body content_type date).

(** Lines 49 to 51: the media type of a served file. *)
Definition media_type (fullpath : string) : string :=
  match guess_type w fullpath with
  | Some t => t
  | None => "application/octet-stream"
  end.

Variable docroot : string.

(** Line 33: the candidate path of a request target. *)
Definition candidate (path : string) : string :=
  normpath (PosixPath.join docroot (lstrip "/" path)).

(** The [try] block of [run]. *)
Definition run_try : M unit :=
  request <- _recv_request ;;
  when (not_ request) (close ;; return_) ;;
  parsed <- _parse_request_line (text_of request) ;;
  let '(method, path, version) := parsed in
  when (negb (method =? "GET"))
    (_send_response 405 (BodyBytes (bytes_lit "Method Not Allowed")) "text/plain" ;;
     return_) ;;
  let fullpath := candidate path in
  when (negb (startswith fullpath (abspath (cwd w) docroot)))
    (_send_response 404 (BodyBytes (bytes_lit "Not Found")) "text/plain" ;;
     return_) ;;
  isdir <- os_path_isdir fullpath ;;
  fullpath <- (if isdir then
                 let index := PosixPath.join fullpath "index.html" in
                 found <- os_path_exists index ;;
                 if found then ret index
                 else
                   _send_response 404 (BodyBytes (bytes_lit "Not Found"))
                                  "text/plain" ;;
                   return_
               else ret fullpath) ;;
  found <- os_path_exists fullpath ;;
  when (negb found)
    (_send_response 404 (BodyBytes (bytes_lit "Not Found")) "text/plain" ;;
     return_) ;;
  body <- open_read fullpath ;;
  let ctype := media_type fullpath in
  _send_response 200 (BodyBytes body) ctype.

(** [HTTPWorker.run]. *)
Definition run : M unit :=
  try_finally
    (try_except run_try
       (fun e =>
          try_except
            (_send_response 500 (BodyBytes (bytes_lit "Internal Server Error"))
                            "text/plain")
            (fun _ => ret tt)))
    (try_except close (fun _ => ret tt)).

(** Everything the handler did to the socket and the file system while
    serving one connection. *)
Definition handle : list event := trace (snd (run initial_state)).

End Handler.

(** ** The response as a client reads it *)

Module Client.

(** One line of the head, read up to the first CRLF, and the bytes after
    that CRLF; the head ends at the first empty line.  [cur] holds the
    bytes of the line being read, last one first. *)
Fixpoint read_head (cur : list byte) (data : list byte)
  : option (list (list byte) * list byte) :=
  match data with
  | [] => None
  | x :: tl =>
      match tl with
      | y :: tl' =>
          if Byte.eqb x bCR && Byte.eqb y bLF then
            match cur with
            | [] => Some ([], tl')
            | _ :: _ =>
                match read_head [] tl' with
                | Some (ls, rest) => Some (List.rev cur :: ls, rest)
                | None => None
                end
            end
          else read_head (x :: cur) tl
      | [] => None
      end
  end.

Record response : Type := mkResponse {
  status_line : list byte;
  headers : list (list byte);
  body : list byte
}.

Definition parse_response (data : list byte) : option response :=
  match read_head [] data with
  | Some (sl :: hs, rest) => Some (mkResponse sl hs rest)
  | _ => None
  end.

Fixpoint strip_prefix (p data : list byte) : option (list byte) :=
  match p, data with
  | [], _ => Some data
  | x :: p', y :: data' =>
      if Byte.eqb x y then strip_prefix p' data' else None
  | _ :: _, [] => None
  end.

(** The value of the first header line named [name]. *)
Fixpoint header_value (name : string) (hs : list (list byte))
  : option (list byte) :=
  match hs with
  | [] => None
  | h :: tl =>
      match strip_prefix (bytes_lit (name ++ ": ")) h with
      | Some v => Some v
      | None => header_value name tl
      end
  end.

Definition nat_of_bytes (v : list byte) : option nat :=
  match v with
  | [] => None
  | _ :: _ =>
      option_map Nat.of_uint (NilEmpty.uint_of_string (string_of_list_byte v))
  end.

Definition status_code (r : response) : option nat :=
  match split_char " " (decode_latin1 (status_line r)) with
  | _ :: code :: _ => nat_of_bytes (list_byte_of_string code)
  | _ => None
  end.

Definition content_type (r : response) : option (list byte) :=
  header_value "Content-Type" (headers r).

Definition content_length (r : response) : option nat :=
  match header_value "Content-Length" (headers r) with
  | Some v => nat_of_bytes v
  | None => None
  end.

End Client.

(** ** Vocabulary of the properties *)

(** A string without a carriage return: a date, a media type. *)
Fixpoint no_cr (s : string) : bool :=
  match s with
  | EmptyString => true
  | String c s' => negb (Ascii.eqb c CR) && no_cr s'
  end.

Definition bytes_no_cr (l : list byte) : bool :=
  forallb (fun x => negb (Byte.eqb x bCR)) l.

(** The status line and the header fields of a response, as text. *)
Definition status_text (code : nat) : string :=
  "HTTP/1.1 " ++ str code ++ " " ++ reason_of code.

Definition header_fields (body : list byte) (ctype date : string)
  : list string :=
  [ "Date: " ++ date;
    "Server: " ++ SERVER_NAME;
    "Content-Type: " ++ ctype;
    "Content-Length: " ++ str (length body) ].

(** A line of a response head: not empty, and without carriage return. *)
Definition well_formed_line (l : list byte) : Prop :=
  l <> [] /\ bytes_no_cr l = true.

(** The MIME table of [w] yields single-line values. *)
Definition single_line_types (w : World) : Prop :=
  forall p t, guess_type w p = Some t -> no_cr t = true.

(** [data] reads as a response with this status, media type and body, its
    [Content-Length] being the length of that body. *)
Definition reads_as (data : list byte) (status : nat) (ctype : string)
           (body : list byte) : Prop :=
  exists r,
    Client.parse_response data = Some r /\
    Client.status_code r = Some status /\
    Client.content_type r = Some (encode_utf8 ctype) /\
    Client.content_length r = Some (length body) /\
    Client.body r = body.

(** The [Content-Length] of [data] is the length of what follows its
    blank line. *)
Definition framed (data : list byte) : Prop :=
  exists r,
    Client.parse_response data = Some r /\
    Client.content_length r = Some (length (Client.body r)).

Definition is_file_access (e : event) : bool :=
  match e with
  | EvIsdir _ | EvExists _ | EvOpen _ => true
  | EvSendall _ _ | EvClose => false
  end.

(** Every [sendall] of the trace carries bytes that satisfy [P]. *)
Definition sends_only (P : list byte -> Prop) (st : State) : Prop :=
  forall data ok, In (EvSendall data ok) (trace st) -> P data.

(** A block of statements maintains [I], however it ends. *)
Definition preserves {A} (I : State -> Prop) (m : M A) : Prop :=
  forall st, I st -> I (snd (m st)).

(** The tokens of the request line of [text]. *)
Definition request_line (text : string) : list string :=
  split_ws (nth 0 (split_crlf text) "").

(** [p] is [root] or lies below it, component-wise. *)
Definition within (root p : string) : bool :=
  (p =? root)
  || startswith p (if endswith_char root "/" then root else root ++ "/").

(** The [Date] at the [n]-th reading of the clock. *)
Definition date_at (w : World) (n : nat) : string := strftime_http (clock w n).

(** The four responses of the server, dated at the [n]-th reading of the
    clock. *)
Definition ok_response (w : World) (n : nat) (body : list byte)
           (ctype : string) : list byte :=
  response_bytes 200 body ctype (date_at w n).

Definition not_found (w : World) (n : nat) : list byte :=
  response_bytes 404 (bytes_lit "Not Found") "text/plain" (date_at w n).

Definition method_not_allowed (w : World) (n : nat) : list byte :=
  response_bytes 405 (bytes_lit "Method Not Allowed") "text/plain" (date_at w n).

Definition internal_error (w : World) (n : nat) : list byte :=
  response_bytes 500 (bytes_lit "Internal Server Error") "text/plain"
                 (date_at w n).

(** What [run] still sends once its first [sendall] has failed: the
    best-effort 500 of its [except] clause. *)

Definition on_send_failure (w : World) (ok : bool) : list event :=
  if ok then [] else [EvSendall (internal_error w 1) (sendall_ok w 1)].

(** No byte arrives: the script of [recv] results is over, or starts with
    the peer's close or with the timeout. *)
Inductive nothing_received : list recv_result -> Prop :=
| nothing_silent : nothing_received []
| nothing_closed rest : nothing_received (RecvData [] :: rest)
| nothing_timeout rest : nothing_received (RecvTimeout :: rest).

(** A [recv] call of the read loop fails: non-empty chunks that do not
    hold the end of the headers, then an error. *)
Inductive read_error : list byte -> list recv_result -> Prop :=
| read_error_now data rest :
    bytes_contains (bCRLF ++ bCRLF)%list data = false ->
    read_error data (RecvError :: rest)
| read_error_later data x chunk rest :
    bytes_contains (bCRLF ++ bCRLF)%list data = false ->
    read_error (data ++ x :: chunk)%list rest ->
    read_error data (RecvData (x :: chunk) :: rest).

(** The path resolution of the specification's wording: one leading slash
    stripped. *)
Definition strip_one_slash (target : string) : string :=
  match target with
  | String "/" rest => rest
  | _ => target
  end.

Definition candidate_one_slash (docroot target : string) : string :=
  normpath (PosixPath.join docroot (strip_one_slash target)).

(** A component that [normpath] leaves in an absolute path. *)
Fixpoint has_char (c : ascii) (s : string) : bool :=
  match s with
  | EmptyString => false
  | String a s' => Ascii.eqb a c || has_char c s'
  end.

Definition plain_component (c : string) : bool :=
  negb (c =? "") && negb (c =? ".") && negb (c =? "..")
  && negb (has_char "/" c).

Definition plain (c : string) : Prop := plain_component c = true.

(** ** A document root to run the handler on *)

Module Demo.

Definition docroot : string := "/srv/www".

Definition files (p : string) : option node :=
  if p =? "/srv/www" then Some Directory
  else if p =? "/srv/www/index.html" then
    Some (RegularFile (bytes_lit "hello world!") true)
  else if p =? "/srv/www/css" then Some Directory
  else if p =? "/srv/www/docs" then Some Directory
  else if p =? "/srv/www/docs/index.html" then Some Directory
  else if p =? "/srv/www-private" then Some Directory
  else if p =? "/srv/www-private/key" then
    Some (RegularFile (bytes_lit "secret") true)
  else None.

Definition types (p : string) : option string :=
  if p =? "/srv/www/index.html" then Some "text/html" else None.

Definition now : datetime := mkDatetime 2026 11 3 12 0 0 1.

(** A client that sends [request] in one piece to a healthy socket. *)
Definition world (request : string) : World :=
  mkWorld "/srv" files types (fun _ => now) (fun _ => true)
          [RecvData (bytes_lit request)].

Definition get (target : string) : string :=
  "GET " ++ target ++ " HTTP/1.1" ++ CRLF ++ CRLF.

Definition malformed : string := "GET /" ++ CRLF ++ CRLF.

Definition delete : string :=
  "DELETE /index.html HTTP/1.1" ++ CRLF ++ CRLF.

(** A client that connects and sends nothing. *)
Definition silent : World :=
  mkWorld "/srv" files types (fun _ => now) (fun _ => true) [].

End Demo.

(** ** Further vocabulary *)

(** The same server facing another client: only what [recv] yields
    changes. *)
Definition with_inbound (w : World) (script : list recv_result) : World :=
  mkWorld (cwd w) (fs w) (guess_type w) (clock w) (sendall_ok w) script.

Definition is_sendall (e : event) : bool :=
  match e with EvSendall _ _ => true | _ => false end.

Definition is_open (e : event) : bool :=
  match e with EvOpen _ => true | _ => false end.

(** A string with a whitespace character in it. *)
Fixpoint has_space (s : string) : bool :=
  match s with
  | EmptyString => false
  | String c s' => isspace c || has_space s'
  end.

(** A token of [str.split()]: not empty, no whitespace. *)
Definition token (s : string) : Prop := s <> "" /\ has_space s = false.


(** The chunks of a list of [recv] results that all carry data. *)
Definition received (chunks : list (list byte)) : list recv_result :=
  map RecvData chunks.

(** The peer goes quiet: silence, close or timeout, but no error. *)
Inductive quiet : list recv_result -> Prop :=
| quiet_silent : quiet []
| quiet_closed rest : quiet (RecvData [] :: rest)
| quiet_timeout rest : quiet (RecvTimeout :: rest).

(** A normalized absolute path: [k] leading slashes, then components
    joined by single slashes. *)
Definition rooted (k : nat) (comps : list string) : string :=
  slashes k ++ Py.join "/" comps.

(** ** [main] *)

(** How [main] ends: it exits with a status, or it calls [run_server]. *)
Inductive startup : Type :=
| Exit (status : nat)
| Serve (port : nat) (docroot : string).

Definition default {A} (d : A) (o : option A) : A :=
  match o with Some a => a | None => d end.

(** [main], the arguments being those that [argparse] has read from the
    command line, [None] for an option that is not given. *)
Definition main (w : World) (port : option nat) (docroot : option string)
  : startup :=
  let args_port := default 1029 port in
  let args_docroot := default "www" docroot in
  let docroot := abspath (cwd w) args_docroot in
  match fs w docroot with
  | None => Exit 1
  | Some _ => Serve args_port docroot
  end.

(** The fields of a [datetime] in their ranges, the year having four
    digits. *)
Definition valid_datetime (t : datetime) : bool :=
  ((1000 <=? year t) && (year t <? 10 * 1000)
   && (1 <=? month t) && (month t <=? 12)
   && (1 <=? day t) && (day t <=? 31)
   && (hour t <? 24) && (minute t <? 60) && (second t <? 60)
   && (weekday t <? 7))%nat.

(** ** The demonstration root with a file that cannot be read *)

Module Locked.

Definition files (p : string) : option node :=
  if p =? "/srv/www/locked.txt" then
    Some (RegularFile (bytes_lit "kept") false)
  else Demo.files p.

Definition world (request : string) : World :=
  mkWorld "/srv" files Demo.types (fun _ => Demo.now) (fun _ => true)
          [RecvData (bytes_lit request)].

End Locked.

(** ** The path resolution in the words of the specification *)

(** Collapsing the segments of a path, one at a time, on the stack of the
    components kept so far, the last one on top: an empty segment and [.]
    change nothing, [..] takes the top component away (and nothing from
    an empty stack), any other segment goes on top. *)
Definition collapse_step (stack : list string) (segment : string)
  : list string :=
  if (segment =? "") || (segment =? ".") then stack
  else if segment =? ".." then tl stack
  else segment :: stack.

(** The components that are left of [segments], starting from the
    components [comps]. *)
Definition collapse_from (comps segments : list string) : list string :=
  List.rev (fold_left collapse_step segments (List.rev comps)).

Definition collapse (segments : list string) : list string :=
  collapse_from [] segments.

(** The candidate of the amended step 1: the segments of the document
    root and those of the fragment, collapsed, behind the leading slashes
    of the root. *)
Definition resolved (docroot fragment : string) : string :=
  slashes (initial_slashes docroot)
  ++ Py.join "/"
       (collapse (split_char "/" docroot ++ split_char "/" fragment)%list).

(** ** The status line as a client reads it *)

(** The first line of [data], up to its CRLF, and what follows. *)
Fixpoint read_line (data : list byte) : option (list byte * list byte) :=
  match data with
  | [] => None
  | x :: tl =>
      match tl with
      | y :: tl' =>
          if Byte.eqb x bCR && Byte.eqb y bLF then Some ([], tl')
          else
            match read_line tl with
            | Some (line, rest) => Some (x :: line, rest)
            | None => None
            end
      | [] => None
      end
  end.

(** The status code on the first line of [data]. *)
Definition status_of (data : list byte) : option nat :=
  match read_line data with
  | Some (line, _) => Client.status_code (Client.mkResponse line [] [])
  | None => None
  end.

(** The reason phrase: what follows the status code on the status line. *)
Definition reason_phrase (r : Client.response) : option string :=
  match split_char " " (decode_latin1 (Client.status_line r)) with
  | _ :: _ :: (_ :: _) as words => Some (Py.join " " words)
  | _ => None
  end.

(** [data] reads as an error response: this status code and this reason
    phrase on its status line, [text/plain] as content type, and as body
    the bytes of the reason phrase and nothing else. *)
Definition error_response (data : list byte) (code : nat) (phrase : string)
  : Prop :=
  exists r,
    Client.parse_response data = Some r /\
    Client.status_code r = Some code /\
    reason_phrase r = Some phrase /\
    Client.content_type r = Some (bytes_lit "text/plain") /\
    Client.content_length r = Some (length (bytes_lit phrase)) /\
    Client.body r = bytes_lit phrase.

(** * Properties *)

(** ** Strings, bytes and decimal numbers *)

Section Encoding.

Lemma encode_utf8_app (s t : string) :
  encode_utf8 (s ++ t) = (encode_utf8 s ++ encode_utf8 t)%list.
Proof.
  induction s as [|c s IH]; simpl; [reflexivity|].
  now rewrite IH, app_assoc.
Qed.

Lemma no_cr_app (s t : string) : no_cr (s ++ t) = no_cr s && no_cr t.
Proof.
  induction s as [|c s IH]; simpl; [reflexivity|].
  now rewrite IH, andb_assoc.
Qed.

Lemma utf8_char_no_cr (c : ascii) :
  Ascii.eqb c CR = false -> bytes_no_cr (utf8_char c) = true.
Proof.
  destruct c as [[] [] [] [] [] [] [] []]; intro H;
    solve [reflexivity | discriminate H].
Qed.

Lemma encode_utf8_no_cr (s : string) :
  no_cr s = true -> bytes_no_cr (encode_utf8 s) = true.
Proof.
  induction s as [|c s IH]; simpl; [reflexivity|].
  intro H. apply andb_true_iff in H as [Hc Hs].
  unfold bytes_no_cr. rewrite forallb_app.
  apply andb_true_iff; split.
  - apply utf8_char_no_cr. now apply negb_true_iff.
  - now apply IH.
Qed.

(** Decimal numerals are ASCII, so that their UTF-8 encoding is the
    numeral itself, and they hold no carriage return. *)
Lemma numeral_ascii (d : uint) :
  encode_utf8 (NilEmpty.string_of_uint d)
  = list_byte_of_string (NilEmpty.string_of_uint d)
  /\ no_cr (NilEmpty.string_of_uint d) = true.
Proof.
  induction d as [|d [IH1 IH2]|d [IH1 IH2]|d [IH1 IH2]|d [IH1 IH2]
                  |d [IH1 IH2]|d [IH1 IH2]|d [IH1 IH2]|d [IH1 IH2]
                  |d [IH1 IH2]|d [IH1 IH2]];
    simpl; (split; [try reflexivity; rewrite IH1; reflexivity
                   | try reflexivity; exact IH2]).
Qed.

Lemma str_no_cr (n : nat) : no_cr (str n) = true.
Proof. apply numeral_ascii. Qed.

Lemma str_nonempty (n : nat) : str n <> "".
Proof.
  unfold str. intro H.
  assert (E : Nat.to_uint n = Nil)
    by (destruct (Nat.to_uint n); simpl in H; solve [reflexivity | discriminate H]).
  pose proof (DecimalNat.Unsigned.of_to n) as R. rewrite E in R.
  simpl in R. subst n. discriminate E.
Qed.

(** Reading back the numeral that [str] prints. *)
Lemma nat_of_bytes_str (n : nat) :
  Client.nat_of_bytes (encode_utf8 (str n)) = Some n.
Proof.
  unfold str. destruct (numeral_ascii (Nat.to_uint n)) as [E _]. rewrite E.
  pose proof (str_nonempty n) as NE. unfold str in NE.
  unfold Client.nat_of_bytes.
  destruct (list_byte_of_string (NilEmpty.string_of_uint (Nat.to_uint n)))
    as [|x l] eqn:L.
  - exfalso. apply NE.
    rewrite <- (string_of_list_byte_of_string
                  (NilEmpty.string_of_uint (Nat.to_uint n))).
    now rewrite L.
  - rewrite <- L, string_of_list_byte_of_string, NilEmpty.usu. simpl.
    now rewrite DecimalNat.Unsigned.of_to.
Qed.

Lemma reason_of_no_cr (code : nat) : no_cr (reason_of code) = true.
Proof.
  unfold reason_of. simpl.
  repeat match goal with
         | |- context [if ?c then _ else _] => destruct c
         end; reflexivity.
Qed.

End Encoding.

(** ** Reading back what [_send_response] writes *)

Section Framing.

Lemma read_head_step (x y : byte) (tl cur : list byte) :
  Byte.eqb x bCR = false ->
  Client.read_head cur (x :: y :: tl) = Client.read_head (x :: cur) (y :: tl).
Proof. intro H. simpl. now rewrite H. Qed.

Lemma read_head_line (l : list byte) :
  bytes_no_cr l = true ->
  forall cur rest,
    Client.read_head cur (l ++ bCR :: bLF :: rest)
    = match (List.rev cur ++ l)%list with
      | [] => Some ([], rest)
      | line =>
          match Client.read_head [] rest with
          | Some (ls, body) => Some (line :: ls, body)
          | None => None
          end
      end.
Proof.
  induction l as [|x l IH]; intros Hl cur rest.
  - rewrite app_nil_r. simpl.
    destruct cur as [|c cs]; [reflexivity|].
    destruct (List.rev (c :: cs)) as [|y ys] eqn:E; [|reflexivity].
    simpl in E. symmetry in E. now apply app_cons_not_nil in E.
  - simpl in Hl. apply andb_true_iff in Hl as [Hx Hl].
    apply negb_true_iff in Hx.
    change ((x :: l) ++ bCR :: bLF :: rest)%list
      with (x :: (l ++ bCR :: bLF :: rest))%list.
    destruct (l ++ bCR :: bLF :: rest)%list as [|y tl] eqn:E.
    + destruct l; discriminate E.
    + rewrite (read_head_step _ _ _ _ Hx), <- E, (IH Hl). simpl List.rev. now rewrite <- app_assoc.
Qed.

(** Lines that are not empty and hold no carriage return, each closed
    by CRLF, then an empty line: the head reads back as these lines and
    the body as what follows. *)
Lemma read_head_lines (ls : list (list byte)) (body : list byte) :
  Forall well_formed_line ls ->
  Client.read_head []
    (flat_map (fun l => l ++ bCRLF) ls ++ bCRLF ++ body)%list
  = Some (ls, body).
Proof.
  induction 1 as [|l ls [Hne Hcr] _ IH]; [reflexivity|].
  cbn [flat_map]. unfold bCRLF at 1. rewrite <- !app_assoc.
  change (Client.read_head []
            (l ++ bCR :: bLF
               :: (flat_map (fun l0 => l0 ++ bCRLF) ls ++ bCRLF ++ body))%list
          = Some (l :: ls, body)).
  rewrite (read_head_line l Hcr). cbn [List.rev app].
  destruct l as [|x l]; [now elim Hne|].
  now rewrite IH.
Qed.

Lemma encode_header (code : nat) (body : list byte) (ctype date : string) :
  encode_utf8 (Py.join CRLF (header_lines code body ctype date))
  = (flat_map (fun l => l ++ bCRLF)
       (map encode_utf8 (status_text code :: header_fields body ctype date))
     ++ bCRLF)%list.
Proof.
  unfold header_lines, Py.join, status_text, header_fields.
  cbn [String.concat map flat_map].
  rewrite !encode_utf8_app. change (encode_utf8 CRLF) with bCRLF.
  now rewrite app_nil_r, <- !app_assoc.
Qed.

Lemma well_formed_header (prefix value : string) :
  prefix <> "" -> no_cr prefix = true -> no_cr value = true ->
  well_formed_line (encode_utf8 (prefix ++ value)).
Proof.
  intros Hne Hp Hv. split.
  - destruct prefix as [|c p]; [now elim Hne|]. simpl.
    destruct c as [b0 b1 b2 b3 b4 b5 b6 []]; discriminate.
  - apply encode_utf8_no_cr. rewrite no_cr_app. now rewrite Hp, Hv.
Qed.

(** What a client reads from the bytes of a response. *)
Lemma parse_response_bytes (code : nat) (body : list byte)
      (ctype date : string) :
  no_cr date = true -> no_cr ctype = true ->
  Client.parse_response (response_bytes code body ctype date)
  = Some (Client.mkResponse
            (encode_utf8 (status_text code))
            (map encode_utf8 (header_fields body ctype date))
            body).
Proof.
  intros Hd Hc. unfold Client.parse_response, response_bytes.
  rewrite encode_header, <- app_assoc, read_head_lines; [reflexivity|].
  unfold status_text, header_fields. cbn [map].
  repeat apply Forall_cons; try apply Forall_nil.
  - apply (well_formed_header "HTTP/1.1 "); [discriminate | reflexivity |].
    rewrite !no_cr_app, str_no_cr, reason_of_no_cr. reflexivity.
  - apply well_formed_header; [discriminate | reflexivity | exact Hd].
  - apply well_formed_header; [discriminate | reflexivity | reflexivity].
  - apply well_formed_header; [discriminate | reflexivity | exact Hc].
  - apply well_formed_header; [discriminate | reflexivity | apply str_no_cr].
Qed.

Lemma strip_prefix_app (p v : list byte) :
  Client.strip_prefix p (p ++ v) = Some v.
Proof.
  induction p as [|x p IH]; simpl; [now destruct v|].
  now rewrite (Byte.byte_dec_lb (eq_refl x)).
Qed.

Lemma content_length_of_header (body : list byte) (ctype date : string) :
  Client.header_value "Content-Length"
    (map encode_utf8 (header_fields body ctype date))
  = Some (encode_utf8 (str (length body))).
Proof.
  unfold header_fields. cbn [map Client.header_value].
  change (Client.strip_prefix (bytes_lit ("Content-Length" ++ ": "))
                              (encode_utf8 ("Date: " ++ date))) with (@None (list byte)).
  change (Client.strip_prefix (bytes_lit ("Content-Length" ++ ": "))
                              (encode_utf8 ("Server: " ++ SERVER_NAME))) with (@None (list byte)).
  change (Client.strip_prefix (bytes_lit ("Content-Length" ++ ": "))
                              (encode_utf8 ("Content-Type: " ++ ctype))) with (@None (list byte)).
  cbv iota. rewrite encode_utf8_app.
  change (encode_utf8 "Content-Length: ") with (bytes_lit ("Content-Length" ++ ": ")).
  now rewrite strip_prefix_app.
Qed.

Lemma content_type_of_header (body : list byte) (ctype date : string) :
  Client.header_value "Content-Type"
    (map encode_utf8 (header_fields body ctype date))
  = Some (encode_utf8 ctype).
Proof.
  unfold header_fields. cbn [map Client.header_value].
  change (Client.strip_prefix (bytes_lit ("Content-Type" ++ ": "))
                              (encode_utf8 ("Date: " ++ date))) with (@None (list byte)).
  change (Client.strip_prefix (bytes_lit ("Content-Type" ++ ": "))
                              (encode_utf8 ("Server: " ++ SERVER_NAME))) with (@None (list byte)).
  cbv iota. rewrite encode_utf8_app.
  change (encode_utf8 "Content-Type: ") with (bytes_lit ("Content-Type" ++ ": ")).
  now rewrite strip_prefix_app.
Qed.

(** Every response written by [_send_response] is framed. *)
Lemma response_framed (code : nat) (body : list byte) (ctype date : string) :
  no_cr date = true -> no_cr ctype = true ->
  framed (response_bytes code body ctype date).
Proof.
  intros Hd Hc. eexists. split; [now apply parse_response_bytes|].
  unfold Client.content_length. cbn [Client.headers Client.body].
  now rewrite content_length_of_header, nat_of_bytes_str.
Qed.

(** With one of the four status codes of the server, it reads as that
    status, that media type and that body. *)
Lemma response_reads_as (code : nat) (body : list byte) (ctype date : string) :
  code = 200 \/ code = 404 \/ code = 405 \/ code = 500 ->
  no_cr date = true -> no_cr ctype = true ->
  reads_as (response_bytes code body ctype date) code ctype body.
Proof.
  intros Hcode Hd Hc. eexists. split; [now apply parse_response_bytes|].
  unfold Client.content_length, Client.content_type.
  cbn [Client.headers Client.body].
  rewrite content_length_of_header, content_type_of_header, nat_of_bytes_str.
  repeat split.
  destruct Hcode as [-> | [-> | [-> | ->]]]; reflexivity.
Qed.

Section Four.

Variable w : World.

Lemma two_digits_no_cr (n : nat) : no_cr (two_digits n) = true.
Proof.
  unfold two_digits. destruct (n <? 10)%nat; [cbn [append no_cr]|];
    now rewrite str_no_cr.
Qed.

Lemma nth_no_cr (l : list string) (k : nat) :
  forallb no_cr l = true -> no_cr (nth k l "") = true.
Proof.
  revert k. induction l as [|x l IH]; intros [|k] H; try reflexivity;
    cbn [forallb nth] in *; apply andb_true_iff in H as [Hx Hl]; auto.
Qed.

(** No date holds a carriage return. *)
Lemma date_no_cr (n : nat) : no_cr (date_at w n) = true.
Proof.
  unfold date_at, strftime_http, day_abbr, month_abbr.
  generalize (clock w n) as t. intro t.
  rewrite !no_cr_app, !two_digits_no_cr, str_no_cr, !nth_no_cr;
    reflexivity.
Qed.

Lemma ok_response_reads (n : nat) (body : list byte) (ctype : string) :
  no_cr ctype = true ->
  reads_as (ok_response w n body ctype) 200 ctype body.
Proof.
  intro Hc.
  apply (response_reads_as 200 body ctype (date_at w n));
    [now left | apply date_no_cr | exact Hc].
Qed.

Lemma not_found_reads (n : nat) :
  reads_as (not_found w n) 404 "text/plain" (bytes_lit "Not Found").
Proof.
  apply (response_reads_as 404 (bytes_lit "Not Found") "text/plain"
                           (date_at w n));
    [now right; left | apply date_no_cr | reflexivity].
Qed.

Lemma method_not_allowed_reads (n : nat) :
  reads_as (method_not_allowed w n) 405 "text/plain"
           (bytes_lit "Method Not Allowed").
Proof.
  apply (response_reads_as 405 (bytes_lit "Method Not Allowed")
                           "text/plain" (date_at w n));
    [now right; right; left | apply date_no_cr | reflexivity].
Qed.

Lemma internal_error_reads (n : nat) :
  reads_as (internal_error w n) 500 "text/plain"
           (bytes_lit "Internal Server Error").
Proof.
  apply (response_reads_as 500 (bytes_lit "Internal Server Error")
                           "text/plain" (date_at w n));
    [now right; right; right | apply date_no_cr | reflexivity].
Qed.

End Four.

End Framing.

(** ** The read phase *)

Section ReadPhase.

Lemma recv_nothing (script : list recv_result) :
  nothing_received script -> recv_loop script [] = Some [].
Proof. destruct 1; reflexivity. Qed.

Lemma recv_loop_eq (script : list recv_result) (data : list byte) :
  recv_loop script data
  = if negb (bytes_contains (bCRLF ++ bCRLF)%list data) then
      match script with
      | RecvData [] :: _ => Some data
      | RecvData chunk :: rest => recv_loop rest (data ++ chunk)%list
      | RecvTimeout :: _ => Some data
      | RecvError :: _ => None
      | [] => Some data
      end
    else Some data.
Proof. destruct script; reflexivity. Qed.

Lemma recv_error (data : list byte) (script : list recv_result) :
  read_error data script -> recv_loop script data = None.
Proof.
  induction 1 as [data rest H | data x chunk rest H _ IH];
    rewrite recv_loop_eq, H; [reflexivity | exact IH].
Qed.

Lemma not_request (w : World) :
  nothing_received (inbound w) \/ read_error [] (inbound w) ->
  not_ (read_request w) = true.
Proof.
  unfold read_request.
  intros [H | H]; [rewrite (recv_nothing _ H) | rewrite (recv_error _ _ H)];
    reflexivity.
Qed.

End ReadPhase.

(** ** Prefixes *)

Section Prefix.

Lemma prefix_refl (s : string) : String.prefix s s = true.
Proof.
  induction s as [|c s IH]; simpl; [reflexivity|].
  destruct (ascii_dec c c) as [_|N]; [exact IH | now elim N].
Qed.

Lemma prefix_app_l (a t s : string) :
  String.prefix (a ++ t) s = true -> String.prefix a s = true.
Proof.
  revert s. induction a as [|c a IH]; intros s H.
  - now destruct s.
  - destruct s as [|d s]; simpl in *; [discriminate H|].
    destruct (ascii_dec c d); [now apply IH | discriminate H].
Qed.

(** A path at or below [root] passes the test of line 34. *)
Lemma within_startswith (root p : string) :
  within root p = true -> startswith p root = true.
Proof.
  unfold within, startswith. intro H.
  apply orb_true_iff in H as [H | H].
  - apply String.eqb_eq in H. subst p. apply prefix_refl.
  - destruct (endswith_char root "/"); [exact H|].
    now apply prefix_app_l with (t := "/").
Qed.

End Prefix.

(** ** Symbolic execution of the handler *)

Ltac step :=
  cbv beta iota zeta delta
      [handle run run_try try_finally try_except bind ret return_ raise when
       log close _recv_request _send_response http_date sendall
       os_path_isdir os_path_exists open_read initial_state
       fst snd trace clock_reads send_calls].

Section RequestLine.

Lemma request_line_text (text : string) (tok : string) (rest : list string) :
  request_line text = tok :: rest ->
  text <> "" /\ nth 0 (split_crlf text) "" <> "".
Proof.
  unfold request_line. intro H. split; intro E; rewrite E in H; discriminate H.
Qed.

Lemma parse_request_line_ok (text m p v : string) (extra : list string) :
  request_line text = m :: p :: v :: extra ->
  _parse_request_line text = ret (m, p, v).
Proof.
  intro H. destruct (request_line_text _ _ _ H) as [_ Hl].
  unfold _parse_request_line. unfold request_line in H.
  destruct (split_crlf text) as [|l ls]; [now elim Hl|].
  cbn [length Nat.eqb orb nth] in *.
  apply String.eqb_neq in Hl. rewrite Hl, H. reflexivity.
Qed.

Lemma parse_request_line_fails (text : string) :
  nth 0 (split_crlf text) "" = "" \/ length (request_line text) < 3 ->
  exists msg, _parse_request_line text = raise (ValueError msg).
Proof.
  unfold _parse_request_line, request_line. intros [H | H].
  - rewrite H, String.eqb_refl, orb_true_r. now eexists.
  - apply Nat.ltb_lt in H. rewrite H.
    destruct (_ || _); now eexists.
Qed.

End RequestLine.

Section Run.

Variable w : World.
Variable docroot : string.

(** C8. If no byte is ever received on the connection, or a [recv] call
    of the read phase fails with an error other than the timeout, the
    handler sends nothing: all it does is close the socket, at line 27
    and again in its [finally] clause. *)
Theorem silent_abort :
  nothing_received (inbound w) \/ read_error [] (inbound w) ->
  handle w docroot = [EvClose; EvClose].
Proof.
  intro H. apply not_request in H. step. rewrite H. reflexivity.
Qed.

(** C7. A request that is not empty and whose first line is empty or has
    fewer than three whitespace-separated tokens is answered by the 500
    response, a status of the 5xx class, after which the socket is
    closed; nothing else is sent. *)
Theorem malformed_request_500 (text : string) :
  read_request w = Some text ->
  text <> "" ->
  nth 0 (split_crlf text) "" = "" \/ length (request_line text) < 3 ->
  handle w docroot = [EvSendall (internal_error w 0) (sendall_ok w 0); EvClose]
  /\ reads_as (internal_error w 0) 500 "text/plain"
              (bytes_lit "Internal Server Error").
Proof.
  intros Hread Hne Hbad. split.
  - destruct (parse_request_line_fails _ Hbad) as [msg Hp].
    apply String.eqb_neq in Hne.
    step. rewrite Hread. cbn [not_ text_of]. rewrite Hne, Hp. step.
    destruct (sendall_ok w 0); reflexivity.
  - apply internal_error_reads.
Qed.

(** C6. Whatever the method is, as long as it is not exactly [GET], the
    first thing sent is the 405 response with its plain-text body, the
    socket is closed at the end, and the file system is not consulted. *)
Theorem non_get_405 (text method target version : string)
        (extra : list string) :
  read_request w = Some text ->
  request_line text = method :: target :: version :: extra ->
  method <> "GET" ->
  handle w docroot
  = ([EvSendall (method_not_allowed w 0) (sendall_ok w 0)]
       ++ on_send_failure w (sendall_ok w 0) ++ [EvClose])%list
  /\ reads_as (method_not_allowed w 0) 405 "text/plain"
              (bytes_lit "Method Not Allowed")
  /\ existsb is_file_access (handle w docroot) = false.
Proof.
  intros Hread Hline Hm.
  assert (E : handle w docroot
              = ([EvSendall (method_not_allowed w 0) (sendall_ok w 0)]
                   ++ on_send_failure w (sendall_ok w 0) ++ [EvClose])%list).
  { destruct (request_line_text _ _ _ Hline) as [Hne _].
    apply String.eqb_neq in Hne. apply String.eqb_neq in Hm.
    step. rewrite Hread. cbn [not_ text_of].
    rewrite Hne, (parse_request_line_ok _ _ _ _ _ Hline). step.
    rewrite Hm. cbn [negb]. unfold on_send_failure.
    destruct (sendall_ok w 0); [reflexivity|].
    destruct (sendall_ok w 1); reflexivity. }
  split; [exact E|]. split; [apply method_not_allowed_reads|].
  rewrite E. unfold on_send_failure.
  destruct (sendall_ok w 0); reflexivity.
Qed.

Lemma media_type_no_cr (p : string) :
  single_line_types w -> no_cr (media_type w p) = true.
Proof.
  intro H. unfold media_type.
  destruct (guess_type w p) as [t|] eqn:E; [now apply (H p) | reflexivity].
Qed.

(** C3. A [GET] request whose target resolves to a readable regular file
    at or below the document root is answered by the 200 response whose
    body is the content of the file and whose [Content-Length] is the
    length of that content. *)
Theorem get_regular_file (text target version : string)
        (extra : list string) (content : list byte) :
  single_line_types w ->
  read_request w = Some text ->
  request_line text = "GET" :: target :: version :: extra ->
  within (abspath (cwd w) docroot) (candidate docroot target) = true ->
  fs w (candidate docroot target) = Some (RegularFile content true) ->
  let F := candidate docroot target in
  let data := ok_response w 0 content (media_type w F) in
  handle w docroot
  = ([EvIsdir F; EvExists F; EvOpen F; EvSendall data (sendall_ok w 0)]
       ++ on_send_failure w (sendall_ok w 0) ++ [EvClose])%list
  /\ reads_as data 200 (media_type w F) content.
Proof.
  intros Htypes Hread Hline Hin Hfile F data. split.
  - destruct (request_line_text _ _ _ Hline) as [Hne _].
    apply String.eqb_neq in Hne. apply within_startswith in Hin.
    step. rewrite Hread. cbn [not_ text_of].
    rewrite Hne, (parse_request_line_ok _ _ _ _ _ Hline). step.
    cbn [String.eqb Ascii.eqb Bool.eqb negb].
    rewrite Hin. cbn [negb]. repeat (rewrite Hfile; cbn [negb]).
    unfold on_send_failure.
    destruct (sendall_ok w 0); [reflexivity|].
    destruct (sendall_ok w 1); reflexivity.
  - apply ok_response_reads. now apply media_type_no_cr.
Qed.

(** C5. When the candidate path of a [GET] request passes the test of
    line 34 and is a directory: if [index.html] in that directory is a
    readable regular file, the 200 response carries its content; if
    nothing of that name exists there, the response is the 404. *)
Theorem directory_index (text target version : string)
        (extra : list string) :
  single_line_types w ->
  read_request w = Some text ->
  request_line text = "GET" :: target :: version :: extra ->
  startswith (candidate docroot target) (abspath (cwd w) docroot) = true ->
  fs w (candidate docroot target) = Some Directory ->
  let D := candidate docroot target in
  let index := PosixPath.join D "index.html" in
  (forall content,
      fs w index = Some (RegularFile content true) ->
      let data := ok_response w 0 content (media_type w index) in
      handle w docroot
      = ([EvIsdir D; EvExists index; EvExists index; EvOpen index;
          EvSendall data (sendall_ok w 0)]
           ++ on_send_failure w (sendall_ok w 0) ++ [EvClose])%list
      /\ reads_as data 200 (media_type w index) content)
  /\ (fs w index = None ->
      handle w docroot
      = ([EvIsdir D; EvExists index;
          EvSendall (not_found w 0) (sendall_ok w 0)]
           ++ on_send_failure w (sendall_ok w 0) ++ [EvClose])%list
      /\ reads_as (not_found w 0) 404 "text/plain" (bytes_lit "Not Found")).
Proof.
  intros Htypes Hread Hline Hin Hdir D index.
  destruct (request_line_text _ _ _ Hline) as [Hne _].
  apply String.eqb_neq in Hne. subst D index.
  split.
  - intros content Hfile data. split.
    + step. rewrite Hread. cbn [not_ text_of].
      rewrite Hne, (parse_request_line_ok _ _ _ _ _ Hline). step.
      cbn [String.eqb Ascii.eqb Bool.eqb negb].
      rewrite Hin. cbn [negb]. rewrite Hdir.
      repeat (rewrite Hfile; cbn [negb]).
      unfold on_send_failure.
      destruct (sendall_ok w 0); [reflexivity|].
      destruct (sendall_ok w 1); reflexivity.
    + apply ok_response_reads. now apply media_type_no_cr.
  - intro Hnone. split.
    + step. rewrite Hread. cbn [not_ text_of].
      rewrite Hne, (parse_request_line_ok _ _ _ _ _ Hline). step.
      cbn [String.eqb Ascii.eqb Bool.eqb negb].
      rewrite Hin. cbn [negb]. rewrite Hdir.
      repeat (rewrite Hnone; cbn [negb]).
      unfold on_send_failure.
      destruct (sendall_ok w 0); [reflexivity|].
      destruct (sendall_ok w 1); reflexivity.
    + apply not_found_reads.
Qed.

(** C9. However the handler ends, the last thing it does is close the
    socket, and no exception leaves it. *)
Theorem always_closed :
  (exists before, handle w docroot = (before ++ [EvClose])%list)
  /\ forall e, fst (run w docroot initial_state) <> Raised e.
Proof.
  unfold handle, run, try_finally.
  destruct (try_except (run_try w docroot) _ initial_state) as [r st] eqn:E.
  cbv [try_except close log]. cbn [fst snd trace]. split.
  - now eexists.
  - intros e Hr. subst r. revert E.
    cbv [try_except].
    destruct (run_try w docroot initial_state) as [[a| |e'] st1];
      [discriminate | discriminate |].
    destruct (_send_response w 500 _ _ st1) as [[a| |e''] st2]; discriminate.
Qed.

End Run.

(** ** What the handler may send *)

Section Preservation.

Context {A B : Type}.
Variable I : State -> Prop.

Lemma preserves_ret (a : A) : preserves I (ret a).
Proof. intros st H. exact H. Qed.

Lemma preserves_return : preserves I (@return_ A).
Proof. intros st H. exact H. Qed.

Lemma preserves_raise (e : exn) : preserves I (@raise A e).
Proof. intros st H. exact H. Qed.

Lemma preserves_bind (m : M A) (k : A -> M B) :
  preserves I m -> (forall a, preserves I (k a)) -> preserves I (bind m k).
Proof.
  intros Hm Hk st H. unfold bind. specialize (Hm st H).
  destruct (m st) as [[a| |e] st']; cbn [snd] in *; [|assumption..].
  now apply Hk.
Qed.

Lemma preserves_try_except (body : M A) (handler : exn -> M A) :
  preserves I body -> (forall e, preserves I (handler e)) ->
  preserves I (try_except body handler).
Proof.
  intros Hb Hh st H. unfold try_except. specialize (Hb st H).
  destruct (body st) as [[a| |e] st']; cbn [snd] in *; [assumption..|].
  now apply Hh.
Qed.

Lemma preserves_try_finally (body : M A) (final : M unit) :
  preserves I body -> preserves I final ->
  preserves I (try_finally body final).
Proof.
  intros Hb Hf st H. unfold try_finally. specialize (Hb st H).
  destruct (body st) as [r st']. cbn [snd] in Hb. specialize (Hf st' Hb).
  destruct (final st') as [[a| |e] st'']; exact Hf.
Qed.

End Preservation.

Section Sends.

Variable w : World.
Variable P : list byte -> Prop.

Lemma preserves_when (c : bool) (body : M unit) :
  preserves (sends_only P) body -> preserves (sends_only P) (when c body).
Proof. destruct c; [trivial | intros _; apply preserves_ret]. Qed.

Lemma preserves_log (e : event) :
  is_file_access e = true \/ e = EvClose ->
  preserves (sends_only P) (log e).
Proof.
  intros He st H data ok Hin. cbn [log snd trace] in Hin.
  apply in_app_or in Hin as [Hin | [Hin | []]]; [now apply (H data ok)|].
  subst e. destruct He as [He | He]; discriminate He.
Qed.

Lemma preserves_isdir (p : string) :
  preserves (sends_only P) (os_path_isdir w p).
Proof.
  apply preserves_bind; [apply preserves_log; now left|].
  intros _. apply preserves_ret.
Qed.

Lemma preserves_exists (p : string) :
  preserves (sends_only P) (os_path_exists w p).
Proof.
  apply preserves_bind; [apply preserves_log; now left|].
  intros _. apply preserves_ret.
Qed.

Lemma preserves_open_read (p : string) :
  preserves (sends_only P) (open_read w p).
Proof.
  apply preserves_bind; [apply preserves_log; now left|].
  intros _. destruct (fs w p) as [[content []|]|];
    solve [apply preserves_ret | apply preserves_raise].
Qed.

Lemma preserves_close : preserves (sends_only P) close.
Proof. apply preserves_log. now right. Qed.

Lemma preserves_send_response (code : nat) (body : list byte)
      (ctype : string) :
  (forall n, P (response_bytes code body ctype (date_at w n))) ->
  preserves (sends_only P) (_send_response w code (BodyBytes body) ctype).
Proof.
  intros HP st H data ok Hin.
  assert (E : trace (snd (_send_response w code (BodyBytes body) ctype st))
              = (trace st
                   ++ [EvSendall
                         (response_bytes code body ctype
                                         (date_at w (clock_reads st)))
                         (sendall_ok w (send_calls st))])%list).
  { cbv [_send_response bind http_date sendall].
    cbn [clock_reads send_calls trace].
    destruct (sendall_ok w (send_calls st)); reflexivity. }
  rewrite E in Hin.
  apply in_app_or in Hin as [Hin | [Hin | []]]; [now apply (H data ok)|].
  injection Hin as <- _. apply HP.
Qed.

Variable docroot : string.

Hypothesis P_ok :
  forall n body p, P (ok_response w n body (media_type w p)).
Hypothesis P_not_found : forall n, P (not_found w n).
Hypothesis P_method : forall n, P (method_not_allowed w n).
Hypothesis P_internal : forall n, P (internal_error w n).

Lemma preserves_run_try : preserves (sends_only P) (run_try w docroot).
Proof.
  unfold run_try.
  apply preserves_bind; [apply preserves_ret | intro request].
  apply preserves_bind; [| intros _].
  { apply preserves_when, preserves_bind;
      [apply preserves_close | intros _; apply preserves_return]. }
  apply preserves_bind; [| intros [[method path] version]].
  { unfold _parse_request_line.
    repeat match goal with
           | |- context [if ?c then _ else _] => destruct c
           end; solve [apply preserves_ret | apply preserves_raise]. }
  apply preserves_bind; [| intros _].
  { apply preserves_when, preserves_bind;
      [now apply preserves_send_response | intros _; apply preserves_return]. }
  apply preserves_bind; [| intros _].
  { apply preserves_when, preserves_bind;
      [now apply preserves_send_response | intros _; apply preserves_return]. }
  apply preserves_bind; [apply preserves_isdir | intro isdir].
  apply preserves_bind; [| intro fullpath].
  { destruct isdir; [| apply preserves_ret].
    apply preserves_bind; [apply preserves_exists | intros []];
      [apply preserves_ret|].
    apply preserves_bind;
      [now apply preserves_send_response | intros _; apply preserves_return]. }
  apply preserves_bind; [apply preserves_exists | intro found].
  apply preserves_bind; [| intros _].
  { apply preserves_when, preserves_bind;
      [now apply preserves_send_response | intros _; apply preserves_return]. }
  apply preserves_bind; [apply preserves_open_read | intro body].
  apply preserves_send_response. intro n. apply P_ok.
Qed.

(** Whatever the handler passes to [sendall] is one of its four
    responses. *)
Lemma handle_sends (data : list byte) (ok : bool) :
  In (EvSendall data ok) (handle w docroot) -> P data.
Proof.
  assert (H : preserves (sends_only P) (run w docroot)).
  { apply preserves_try_finally.
    - apply preserves_try_except; [apply preserves_run_try | intros _].
      apply preserves_try_except; [| intros _; apply preserves_ret].
      now apply preserves_send_response.
    - apply preserves_try_except;
        [apply preserves_close | intros _; apply preserves_ret]. }
  apply (H initial_state). intros d o [].
Qed.

End Sends.

(** ** Framing and error bodies of every response *)

Section EveryResponse.

Variable w : World.
Variable docroot : string.

(** C2. Whatever the handler sends, with whatever status, the value of
    its [Content-Length] header is the number of bytes that follow the
    blank line. *)
Theorem content_length_matches_body (data : list byte) (ok : bool) :
  single_line_types w ->
  In (EvSendall data ok) (handle w docroot) -> framed data.
Proof.
  intros Htypes. apply handle_sends.
  - intros n body p.
    apply (response_framed 200 body (media_type w p) (date_at w n));
      [apply date_no_cr | now apply media_type_no_cr].
  - intro n.
    apply (response_framed 404 (bytes_lit "Not Found") "text/plain"
                           (date_at w n)); [apply date_no_cr | reflexivity].
  - intro n.
    apply (response_framed 405 (bytes_lit "Method Not Allowed") "text/plain"
                           (date_at w n)); [apply date_no_cr | reflexivity].
  - intro n.
    apply (response_framed 500 (bytes_lit "Internal Server Error")
                           "text/plain" (date_at w n));
      [apply date_no_cr | reflexivity].
Qed.

End EveryResponse.

(** ** Containment *)

Section Containment.

Lemma prefix_app_r (a s t : string) :
  String.prefix a s = true -> String.prefix a (s ++ t) = true.
Proof.
  revert s. induction a as [|c a IH]; intros s H.
  - now destruct (s ++ t).
  - destruct s as [|d s]; simpl in *; [discriminate H|].
    destruct (ascii_dec c d); [now apply IH | discriminate H].
Qed.

Lemma startswith_index (root p : string) :
  startswith p root = true ->
  startswith (PosixPath.join p "index.html") root = true.
Proof.
  unfold PosixPath.join, startswith. cbn [String.prefix]. intro H.
  destruct (ascii_dec "/" "i"); [discriminate|].
  destruct (_ || _); now apply prefix_app_r.
Qed.

Variable w : World.
Variable docroot : string.

(** X1. The handler opens no file whose path does not begin with the
    absolute document root, as a string. *)
Lemma opens_under_prefix (p : string) :
  In (EvOpen p) (handle w docroot) ->
  startswith p (abspath (cwd w) docroot) = true.
Proof.
  step. destruct (read_request w) as [text|]; cbn [not_ text_of].
  2: { cbn. intuition discriminate. }
  destruct (text =? ""). { cbn. intuition discriminate. }
  unfold _parse_request_line.
  destruct (_ || _). { step. destruct (sendall_ok w 0); cbn; intuition discriminate. }
  destruct (_ <? _)%nat. { step. destruct (sendall_ok w 0); cbn; intuition discriminate. }
  step.
  destruct (negb _).
  { destruct (sendall_ok w 0); [|destruct (sendall_ok w 1)]; cbn; intuition discriminate. }
  destruct (startswith _ _) eqn:Hs; cbn [negb].
  2: { destruct (sendall_ok w 0); [|destruct (sendall_ok w 1)]; cbn; intuition discriminate. }
  pose proof (startswith_index _ _ Hs) as Hi.
  repeat match goal with
         | |- context [match fs w ?q with _ => _ end] =>
             destruct (fs w q) as [[? []|]|]; cbn [negb]
         end;
    (destruct (sendall_ok w 0); [|destruct (sendall_ok w 1)]);
    cbn; intuition (try discriminate);
    match goal with
    | H : EvOpen _ = EvOpen _ |- _ => injection H as <-; assumption
    end.
Qed.

End Containment.

(** ** Path resolution *)

Section Resolution.

Lemma lstrip_slashes (target : string) :
  exists k, target = slashes k ++ lstrip "/" target.
Proof.
  induction target as [|c t [k IH]]; [now exists 0|].
  cbn [lstrip]. destruct (Ascii.eqb_spec c "/") as [-> | N].
  - exists (S k). cbn [slashes append]. now rewrite <- IH.
  - now exists 0.
Qed.

Lemma lstrip_not_slash (target : string) :
  startswith (lstrip "/" target) "/" = false.
Proof.
  induction target as [|c t IH]; [reflexivity|].
  cbn [lstrip]. destruct (Ascii.eqb_spec c "/") as [-> | N]; [exact IH|].
  unfold startswith. cbn [String.prefix].
  destruct (ascii_dec "/" c) as [<- | _]; [now elim N | reflexivity].
Qed.

(** Joining a fragment that does not start with a slash never drops
    the root. *)
Lemma join_relative (root fragment : string) :
  root <> "" ->
  startswith fragment "/" = false ->
  PosixPath.join root fragment
  = root ++ (if endswith_char root "/" then "" else "/") ++ fragment.
Proof.
  intros Hr Hf. unfold PosixPath.join. rewrite Hf.
  apply String.eqb_neq in Hr. rewrite Hr. cbn [orb].
  now destruct (endswith_char root "/").
Qed.

Lemma Forall_cons_head (Q : string -> Prop) (a : ascii) (l : list string) :
  l <> [] ->
  (forall h, Q h -> Q (String a h)) ->
  Forall Q l -> Forall Q (cons_head a l).
Proof.
  intros Hne Ha Hl. destruct l as [|h t]; [now elim Hne|].
  inversion Hl; subst. constructor; auto.
Qed.

Lemma split_char_nonempty (c : ascii) (s : string) : split_char c s <> [].
Proof.
  induction s as [|a s IH]; cbn [split_char]; [discriminate|].
  destruct (Ascii.eqb a c); [discriminate|].
  destruct (split_char c s); [now elim IH | discriminate].
Qed.

Lemma split_char_no_sep (c : ascii) (s : string) :
  Forall (fun x => has_char c x = false) (split_char c s).
Proof.
  induction s as [|a s IH]; cbn [split_char]; [now repeat constructor|].
  destruct (Ascii.eqb a c) eqn:E; [now constructor|].
  apply Forall_cons_head; [apply split_char_nonempty | | exact IH].
  intros h Hh. cbn [has_char]. now rewrite E, Hh.
Qed.

Lemma plain_last (l : list string) :
  l <> [] -> Forall plain l -> plain (last l "").
Proof.
  intros Hne Hl. destruct (exists_last Hne) as [l' [x ->]].
  rewrite last_last. apply Forall_app in Hl as [_ Hx]. now inversion Hx.
Qed.

Lemma plain_removelast (l : list string) :
  Forall plain l -> Forall plain (removelast l).
Proof.
  intro Hl. destruct l as [|a l]; [constructor|].
  destruct (@exists_last _ (a :: l)) as [l' [x E]]; [discriminate|].
  rewrite E in *. rewrite removelast_last.
  now apply Forall_app in Hl as [Hl _].
Qed.

(** In an absolute path the loop of [normpath] keeps plain components
    only: none is empty, [.] or [..]. *)
Lemma normpath_loop_plain (initial : nat) (comps : list string) :
  initial <> 0 ->
  Forall (fun x => has_char "/" x = false) comps ->
  forall new_comps,
    Forall plain new_comps ->
    Forall plain (normpath_loop initial comps new_comps).
Proof.
  intros Hi Hc. induction Hc as [|comp rest Hcomp _ IH]; intros acc Hacc;
    cbn [normpath_loop]; [exact Hacc|].
  destruct (comp =? "") eqn:E0; cbn [orb]; [now apply IH|].
  destruct (comp =? ".") eqn:E1; [now apply IH|].
  destruct (comp =? "..") eqn:E2; cbn [negb orb].
  - apply Nat.eqb_neq in Hi. rewrite Hi. cbn [andb orb].
    destruct acc as [|a acc']; cbn [is_nil negb andb]; [now apply IH|].
    assert (Hl : plain (last (a :: acc') "")) by (now apply plain_last).
    unfold plain, plain_component in Hl.
    destruct (last (a :: acc') "" =? "..").
    + rewrite !andb_false_r in Hl. discriminate Hl.
    + apply IH. now apply plain_removelast.
  - apply IH. apply Forall_app. split; [exact Hacc|].
    constructor; [|constructor].
    unfold plain, plain_component. now rewrite E0, E1, E2, Hcomp.
Qed.

Lemma normpath_absolute (path : string) :
  isabs path = true ->
  exists k comps,
    (k = 1 \/ k = 2) /\ Forall plain comps /\
    normpath path = slashes k ++ Py.join "/" comps.
Proof.
  intro Habs. unfold isabs in Habs.
  exists (initial_slashes path),
         (normpath_loop (initial_slashes path) (split_char "/" path) []).
  assert (Hk : initial_slashes path = 1 \/ initial_slashes path = 2).
  { unfold initial_slashes. rewrite Habs. destruct (_ && _); auto. }
  split; [exact Hk|]. split.
  - apply normpath_loop_plain;
      [destruct Hk as [-> | ->]; discriminate
      | apply split_char_no_sep | constructor].
  - unfold normpath.
    destruct path as [|c path]; [discriminate Habs|]. cbn [String.eqb].
    cbv zeta. now destruct Hk as [-> | ->].
Qed.

End Resolution.

(** ** Escaping the document root *)

Section Escape.

Variable w : World.
Variable docroot : string.

(** X3. A [GET] whose candidate path does not begin with the absolute
    document root gets the 404, and the file system is not consulted. *)
Lemma escape_404 (text target version : string) (extra : list string) :
  read_request w = Some text ->
  request_line text = "GET" :: target :: version :: extra ->
  startswith (candidate docroot target) (abspath (cwd w) docroot) = false ->
  handle w docroot
  = ([EvSendall (not_found w 0) (sendall_ok w 0)]
       ++ on_send_failure w (sendall_ok w 0) ++ [EvClose])%list.
Proof.
  intros Hread Hline Hout.
  destruct (request_line_text _ _ _ Hline) as [Hne _].
  apply String.eqb_neq in Hne.
  step. rewrite Hread. cbn [not_ text_of].
  rewrite Hne, (parse_request_line_ok _ _ _ _ _ Hline). step.
  cbn [String.eqb Ascii.eqb Bool.eqb negb].
  rewrite Hout. cbn [negb]. unfold on_send_failure.
  destruct (sendall_ok w 0); [reflexivity|].
  destruct (sendall_ok w 1); reflexivity.
Qed.

End Escape.

(** C1, at a request that leaves the document root.  With [/srv/www] as
    document root, the target [/../www-private/key] resolves to
    [/srv/www-private/key], which is not below [/srv/www] and yet begins
    with the string [/srv/www]: the test of line 34 lets it through and the
    file is served with status 200. *)
Theorem sibling_of_docroot_served :
  let w := Demo.world (Demo.get "/../www-private/key") in
  let p := candidate Demo.docroot "/../www-private/key" in
  p = "/srv/www-private/key"
  /\ within (abspath (cwd w) Demo.docroot) p = false
  /\ startswith p (abspath (cwd w) Demo.docroot) = true
  /\ handle w Demo.docroot
     = [EvIsdir p; EvExists p; EvOpen p;
        EvSendall (ok_response w 0 (bytes_lit "secret")
                               "application/octet-stream") true;
        EvClose].
Proof. vm_compute. repeat split. Qed.

(** The run of the mill traversal, by contrast, is refused. *)
Example traversal_refused :
  let w := Demo.world (Demo.get "/../../etc/passwd") in
  candidate Demo.docroot "/../../etc/passwd" = "/etc/passwd"
  /\ handle w Demo.docroot = [EvSendall (not_found w 0) true; EvClose].
Proof. vm_compute. split; reflexivity. Qed.

(** C4, at a target with two leading slashes: the code strips both, and
    its candidate is not the one that stripping a single slash yields. *)
Lemma one_slash_is_not_lstrip :
  lstrip "/" "//index.html" <> strip_one_slash "//index.html"
  /\ candidate "/srv/www" "//index.html"
     <> candidate_one_slash "/srv/www" "//index.html".
Proof. split; vm_compute; discriminate. Qed.

(** An [index.html] that exists and cannot be read as a file, here a
    directory of that name, is an internal failure: the handler answers
    with its 500. *)
Example index_directory_500 :
  let w := Demo.world (Demo.get "/docs") in
  handle w Demo.docroot
  = [EvIsdir "/srv/www/docs"; EvExists "/srv/www/docs/index.html";
     EvExists "/srv/www/docs/index.html"; EvOpen "/srv/www/docs/index.html";
     EvSendall (internal_error w 0) true; EvClose].
Proof. vm_compute. reflexivity. Qed.

(** The bytes on the wire, header after header. *)
Example not_found_on_the_wire :
  decode_latin1 (not_found (Demo.world (Demo.get "/missing.png")) 0)
  = "HTTP/1.1 404 Not Found" ++ CRLF
    ++ "Date: Tue, 03 Nov 2026 12:00:00 GMT" ++ CRLF
    ++ "Server: NikkiGorskiServer/1.0" ++ CRLF
    ++ "Content-Type: text/plain" ++ CRLF
    ++ "Content-Length: 9" ++ CRLF
    ++ CRLF
    ++ "Not Found".
Proof. vm_compute. reflexivity. Qed.

(** A request that arrives in two pieces, the second after the blank line
    being never asked for. *)
Example request_in_pieces :
  let w := mkWorld "/srv" Demo.files Demo.types (fun _ => Demo.now)
                   (fun _ => true)
                   [RecvData (bytes_lit "GET /index.ht");
                    RecvData (bytes_lit ("ml HTTP/1.1" ++ CRLF ++ CRLF));
                    RecvError] in
  read_request w = Some (Demo.get "/index.html").
Proof. vm_compute. reflexivity. Qed.

(** ** The theorems at work on the demonstration root *)

Section Witnesses.

Lemma demo_types (request : string) : single_line_types (Demo.world request).
Proof.
  intros p t. cbn [guess_type Demo.world]. unfold Demo.types.
  destruct (p =? "/srv/www/index.html"); intros [= <-]. reflexivity.
Qed.

End Witnesses.

Lemma silent_abort_witness :
  (nothing_received (inbound Demo.silent)
   \/ read_error [] (inbound Demo.silent))
  /\ handle Demo.silent Demo.docroot = [EvClose; EvClose].
Proof.
  split; [left; constructor|].
  apply silent_abort. left. constructor.
Defined.

Lemma malformed_request_500_witness :
  let w := Demo.world Demo.malformed in
  length (request_line Demo.malformed) < 3
  /\ handle w Demo.docroot = [EvSendall (internal_error w 0) true; EvClose]
  /\ reads_as (internal_error w 0) 500 "text/plain"
              (bytes_lit "Internal Server Error").
Proof.
  intro w.
  assert (H : length (request_line Demo.malformed) < 3)
    by (vm_compute; lia).
  split; [exact H|].
  apply (malformed_request_500 w Demo.docroot Demo.malformed).
  - reflexivity.
  - discriminate.
  - right. exact H.
Defined.

Lemma non_get_405_witness :
  let w := Demo.world Demo.delete in
  request_line Demo.delete = ["DELETE"; "/index.html"; "HTTP/1.1"]
  /\ handle w Demo.docroot = [EvSendall (method_not_allowed w 0) true; EvClose]
  /\ reads_as (method_not_allowed w 0) 405 "text/plain"
              (bytes_lit "Method Not Allowed")
  /\ existsb is_file_access (handle w Demo.docroot) = false.
Proof.
  intro w. split; [reflexivity|].
  apply (non_get_405 w Demo.docroot Demo.delete
                     "DELETE" "/index.html" "HTTP/1.1" []).
  - reflexivity.
  - reflexivity.
  - discriminate.
Defined.

Lemma get_regular_file_witness :
  let w := Demo.world (Demo.get "/index.html") in
  let data := ok_response w 0 (bytes_lit "hello world!") "text/html" in
  fs w "/srv/www/index.html" = Some (RegularFile (bytes_lit "hello world!") true)
  /\ handle w Demo.docroot
     = [EvIsdir "/srv/www/index.html"; EvExists "/srv/www/index.html";
        EvOpen "/srv/www/index.html"; EvSendall data true; EvClose]
  /\ reads_as data 200 "text/html" (bytes_lit "hello world!").
Proof.
  intros w data. split; [reflexivity|].
  apply (get_regular_file w Demo.docroot (Demo.get "/index.html")
                          "/index.html" "HTTP/1.1" []
                          (bytes_lit "hello world!")).
  - apply demo_types.
  - reflexivity.
  - reflexivity.
  - reflexivity.
  - reflexivity.
Defined.

Lemma directory_index_witness :
  (let w := Demo.world (Demo.get "/") in
   let data := ok_response w 0 (bytes_lit "hello world!") "text/html" in
   fs w "/srv/www" = Some Directory
   /\ handle w Demo.docroot
      = [EvIsdir "/srv/www"; EvExists "/srv/www/index.html";
         EvExists "/srv/www/index.html"; EvOpen "/srv/www/index.html";
         EvSendall data true; EvClose]
   /\ reads_as data 200 "text/html" (bytes_lit "hello world!"))
  /\ (let w := Demo.world (Demo.get "/css") in
      fs w "/srv/www/css" = Some Directory
      /\ fs w "/srv/www/css/index.html" = None
      /\ handle w Demo.docroot
         = [EvIsdir "/srv/www/css"; EvExists "/srv/www/css/index.html";
            EvSendall (not_found w 0) true; EvClose]
      /\ reads_as (not_found w 0) 404 "text/plain" (bytes_lit "Not Found")).
Proof.
  split.
  - intros w data. split; [reflexivity|].
    apply (proj1 (directory_index w Demo.docroot (Demo.get "/")
                                  "/" "HTTP/1.1" []
                                  (demo_types _)
                                  eq_refl eq_refl eq_refl eq_refl)
                 (bytes_lit "hello world!")).
    reflexivity.
  - intro w. split; [reflexivity|]. split; [reflexivity|].
    apply (proj2 (directory_index w Demo.docroot (Demo.get "/css")
                                  "/css" "HTTP/1.1" []
                                  (demo_types _)
                                  eq_refl eq_refl eq_refl eq_refl)).
    reflexivity.
Defined.

Lemma content_length_matches_body_witness :
  let w := Demo.world (Demo.get "/missing.png") in
  In (EvSendall (not_found w 0) true) (handle w Demo.docroot)
  /\ framed (not_found w 0).
Proof.
  intro w.
  assert (H : In (EvSendall (not_found w 0) true) (handle w Demo.docroot))
    by (vm_compute; tauto).
  split; [exact H|].
  apply (content_length_matches_body w Demo.docroot
                                     (not_found w 0) true (demo_types _) H).
Defined.

(** * Further properties of the handler *)

Section Outcomes.

Variable w : World.
Variable docroot : string.

(** X5. A [GET] whose candidate passes line 34 and names nothing gets the 404
    of line 45 after two look-ups, and nothing is opened. *)
Theorem missing_file_404 (text target version : string)
        (extra : list string) :
  read_request w = Some text ->
  request_line text = "GET" :: target :: version :: extra ->
  startswith (candidate docroot target) (abspath (cwd w) docroot) = true ->
  fs w (candidate docroot target) = None ->
  let F := candidate docroot target in
  handle w docroot
  = ([EvIsdir F; EvExists F; EvSendall (not_found w 0) (sendall_ok w 0)]
       ++ on_send_failure w (sendall_ok w 0) ++ [EvClose])%list.
Proof.
  intros Hread Hline Hin Hnone F. subst F.
  destruct (request_line_text _ _ _ Hline) as [Hne _].
  apply String.eqb_neq in Hne.
  step. rewrite Hread. cbn [not_ text_of].
  rewrite Hne, (parse_request_line_ok _ _ _ _ _ Hline). step.
  cbn [String.eqb Ascii.eqb Bool.eqb negb].
  rewrite Hin. cbn [negb]. repeat (rewrite Hnone; cbn [negb]).
  unfold on_send_failure.
  destruct (sendall_ok w 0); [reflexivity|].
  destruct (sendall_ok w 1); reflexivity.
Qed.

(** X6. A file that exists and cannot be read makes [open] raise: the handler
    answers with the 500 of its [except] clause, and if that cannot be
    sent either it just closes. *)
Theorem unreadable_file_500 (text target version : string)
        (extra : list string) (content : list byte) :
  read_request w = Some text ->
  request_line text = "GET" :: target :: version :: extra ->
  startswith (candidate docroot target) (abspath (cwd w) docroot) = true ->
  fs w (candidate docroot target) = Some (RegularFile content false) ->
  let F := candidate docroot target in
  handle w docroot
  = [EvIsdir F; EvExists F; EvOpen F;
     EvSendall (internal_error w 0) (sendall_ok w 0); EvClose]
  /\ reads_as (internal_error w 0) 500 "text/plain"
              (bytes_lit "Internal Server Error").
Proof.
  intros Hread Hline Hin Hfile F. subst F. split; [|apply internal_error_reads].
  destruct (request_line_text _ _ _ Hline) as [Hne _].
  apply String.eqb_neq in Hne.
  step. rewrite Hread. cbn [not_ text_of].
  rewrite Hne, (parse_request_line_ok _ _ _ _ _ Hline). step.
  cbn [String.eqb Ascii.eqb Bool.eqb negb].
  rewrite Hin. cbn [negb]. repeat (rewrite Hfile; cbn [negb]).
  destruct (sendall_ok w 0); reflexivity.
Qed.

(** X7. When the candidate is a directory whose [index.html] exists and
    cannot be opened as a file, being unreadable or a directory itself,
    [open] raises and the handler answers with its 500. *)
Theorem unreadable_index_500 (text target version : string)
        (extra : list string) (entry : node) :
  read_request w = Some text ->
  request_line text = "GET" :: target :: version :: extra ->
  startswith (candidate docroot target) (abspath (cwd w) docroot) = true ->
  fs w (candidate docroot target) = Some Directory ->
  fs w (PosixPath.join (candidate docroot target) "index.html") = Some entry ->
  (forall content, entry <> RegularFile content true) ->
  let D := candidate docroot target in
  let index := PosixPath.join D "index.html" in
  handle w docroot
  = [EvIsdir D; EvExists index; EvExists index; EvOpen index;
     EvSendall (internal_error w 0) (sendall_ok w 0); EvClose].
Proof.
  intros Hread Hline Hin Hdir Hentry Hbad D index. subst D index.
  destruct (request_line_text _ _ _ Hline) as [Hne _].
  apply String.eqb_neq in Hne.
  step. rewrite Hread. cbn [not_ text_of].
  rewrite Hne, (parse_request_line_ok _ _ _ _ _ Hline). step.
  cbn [String.eqb Ascii.eqb Bool.eqb negb].
  rewrite Hin. cbn [negb]. rewrite Hdir.
  repeat (rewrite Hentry; cbn [negb]).
  destruct entry as [content [|]|];
    [now elim (Hbad content) | |];
    destruct (sendall_ok w 0); reflexivity.
Qed.

(** X8. Per connection the handler calls [sendall] at most twice, the second
    time only after the first has failed and then with its 500; a single
    call that fails is the call for the 500 itself; and at most one file
    is opened. *)
Theorem at_most_one_response :
  let sent := filter is_sendall (handle w docroot) in
  (sent = []
   \/ (exists data ok,
         sent = [EvSendall data ok]
         /\ (ok = false -> data = internal_error w 0))
   \/ (exists data ok,
         sent = [EvSendall data false; EvSendall (internal_error w 1) ok]))
  /\ length (filter is_open (handle w docroot)) <= 1.
Proof.
  assert (one : forall data ok,
             (ok = false -> data = internal_error w 0) ->
             [EvSendall data ok] = []
             \/ (exists data' ok',
                   [EvSendall data ok] = [EvSendall data' ok']
                   /\ (ok' = false -> data' = internal_error w 0))
             \/ (exists data' ok',
                   [EvSendall data ok]
                   = [EvSendall data' false;
                      EvSendall (internal_error w 1) ok'])).
  { intros data ok H. right; left. now exists data, ok. }
  assert (two : forall data ok,
             [EvSendall data false; EvSendall (internal_error w 1) ok] = []
             \/ (exists data' ok',
                   [EvSendall data false; EvSendall (internal_error w 1) ok]
                   = [EvSendall data' ok']
                   /\ (ok' = false -> data' = internal_error w 0))
             \/ (exists data' ok',
                   [EvSendall data false; EvSendall (internal_error w 1) ok]
                   = [EvSendall data' false;
                      EvSendall (internal_error w 1) ok'])).
  { intros data ok. right; right. now exists data, ok. }
  cbv zeta.
  step. destruct (read_request w) as [text|]; cbn [not_ text_of].
  2: { cbn. split; [now left | lia]. }
  destruct (text =? ""). { cbn. split; [now left | lia]. }
  unfold _parse_request_line.
  destruct (_ || _).
  { step. destruct (sendall_ok w 0); cbv beta iota zeta delta [filter is_sendall is_open Datatypes.app Datatypes.length];
      (split; [apply one; solve [discriminate | reflexivity] | lia]). }
  destruct (_ <? _)%nat.
  { step. destruct (sendall_ok w 0); cbv beta iota zeta delta [filter is_sendall is_open Datatypes.app Datatypes.length];
      (split; [apply one; solve [discriminate | reflexivity] | lia]). }
  step.
  destruct (negb _).
  { destruct (sendall_ok w 0); [|destruct (sendall_ok w 1)];
      cbv beta iota zeta delta [filter is_sendall is_open Datatypes.app Datatypes.length];
      (split; [first [apply one; discriminate | apply two] | lia]). }
  destruct (startswith _ _); cbn [negb].
  2: { destruct (sendall_ok w 0); [|destruct (sendall_ok w 1)];
         cbv beta iota zeta delta [filter is_sendall is_open Datatypes.app Datatypes.length];
         (split; [first [apply one; discriminate | apply two] | lia]). }
  repeat match goal with
         | |- context [match fs w ?q with _ => _ end] =>
             destruct (fs w q) as [[? []|]|]; cbn [negb]
         end;
    (destruct (sendall_ok w 0); [|destruct (sendall_ok w 1)]);
    cbv beta iota zeta delta [filter is_sendall is_open Datatypes.app Datatypes.length];
    (split; [first [apply one; solve [discriminate | reflexivity]
                   | apply two] | lia]).
Qed.

End Outcomes.

(** X9. The version token, any further token of the request line and
    everything after the first line play no part: two requests with the
    same method and target get the same treatment from the same server. *)
Theorem only_method_and_target_matter
        (w : World) (docroot : string) (script1 script2 : list recv_result)
        (text1 text2 method target version1 version2 : string)
        (extra1 extra2 : list string) :
  read_request (with_inbound w script1) = Some text1 ->
  read_request (with_inbound w script2) = Some text2 ->
  request_line text1 = method :: target :: version1 :: extra1 ->
  request_line text2 = method :: target :: version2 :: extra2 ->
  handle (with_inbound w script1) docroot
  = handle (with_inbound w script2) docroot.
Proof.
  intros Hr1 Hr2 Hl1 Hl2.
  destruct (request_line_text _ _ _ Hl1) as [Hn1 _].
  destruct (request_line_text _ _ _ Hl2) as [Hn2 _].
  apply String.eqb_neq in Hn1. apply String.eqb_neq in Hn2.
  step. rewrite Hr1, Hr2. cbn [not_ text_of].
  rewrite Hn1, Hn2, (parse_request_line_ok _ _ _ _ _ Hl1),
    (parse_request_line_ok _ _ _ _ _ Hl2).
  reflexivity.
Qed.

(** * Further properties of the helpers *)

Section SendResponse.

Lemma list_byte_of_string_app (s t : string) :
  list_byte_of_string (s ++ t)
  = (list_byte_of_string s ++ list_byte_of_string t)%list.
Proof.
  induction s as [|c s IH]; [reflexivity|].
  cbn [append]. change (list_byte_of_string (String c (s ++ t)))
    with (byte_of_ascii c :: list_byte_of_string (s ++ t)).
  now rewrite IH.
Qed.

Lemma str_no_space (n : nat) : has_char " " (str n) = false.
Proof.
  unfold str. induction (Nat.to_uint n); cbn; auto.
Qed.

Lemma split_char_app_sep (c : ascii) (a rest : string) :
  has_char c a = false ->
  split_char c (a ++ String c rest) = a :: split_char c rest.
Proof.
  induction a as [|x a IH]; intro H; cbn [append split_char].
  - now rewrite Ascii.eqb_refl.
  - cbn [has_char] in H. apply orb_false_iff in H as [Hx Ha].
    now rewrite Hx, (IH Ha).
Qed.

Lemma reason_of_ascii (code : nat) :
  encode_utf8 (reason_of code) = list_byte_of_string (reason_of code).
Proof.
  unfold reason_of. cbn [find fst snd].
  repeat match goal with
         | |- context [if ?c then _ else _] => destruct c
         end; reflexivity.
Qed.

(** The status line gives back the code it was written with, whatever
    that code is. *)
Lemma status_code_of_line (code : nat) (hs : list (list byte))
      (body : list byte) :
  Client.status_code
    (Client.mkResponse (encode_utf8 (status_text code)) hs body)
  = Some code.
Proof.
  unfold Client.status_code, status_text. cbn [Client.status_line].
  assert (E : encode_utf8 ("HTTP/1.1 " ++ str code ++ " " ++ reason_of code)
              = list_byte_of_string
                  ("HTTP/1.1 " ++ str code ++ " " ++ reason_of code)).
  { rewrite !encode_utf8_app, !list_byte_of_string_app, reason_of_ascii.
    unfold str. now destruct (numeral_ascii (Nat.to_uint code)) as [-> _]. }
  rewrite E. unfold decode_latin1. rewrite string_of_list_byte_of_string.
  change ("HTTP/1.1 " ++ str code ++ " " ++ reason_of code)
    with ("HTTP/1.1" ++ String " " (str code ++ String " " (reason_of code))).
  rewrite split_char_app_sep by reflexivity.
  rewrite split_char_app_sep by apply str_no_space.
  pose proof (nat_of_bytes_str code) as N.
  unfold str in *. destruct (numeral_ascii (Nat.to_uint code)) as [R _].
  now rewrite R in N.
Qed.

Variable w : World.


End SendResponse.

Section ParseRequestLine.

Lemma split_crlf_cons (c : ascii) (s : string) :
  s <> "" -> Ascii.eqb c CR = false ->
  split_crlf (String c s) = cons_head c (split_crlf s).
Proof.
  intros Hs Hc. destruct s as [|c' s']; [now elim Hs|].
  change (split_crlf (String c (String c' s')))
    with (if Ascii.eqb c CR && Ascii.eqb c' LF then "" :: split_crlf s'
          else cons_head c (split_crlf (String c' s'))).
  now rewrite Hc.
Qed.

Lemma split_crlf_single (line : string) :
  no_cr line = true -> split_crlf line = [line].
Proof.
  induction line as [|c l IH]; [reflexivity|].
  intro H. cbn [no_cr] in H. apply andb_true_iff in H as [Hc Hl].
  apply negb_true_iff in Hc.
  destruct l as [|c' l']; [reflexivity|].
  rewrite split_crlf_cons by (discriminate || exact Hc).
  now rewrite (IH Hl).
Qed.

Lemma split_crlf_first (line rest : string) :
  no_cr line = true ->
  split_crlf (line ++ CRLF ++ rest) = line :: split_crlf rest.
Proof.
  induction line as [|c l IH]; [reflexivity|].
  intro H. cbn [no_cr] in H. apply andb_true_iff in H as [Hc Hl].
  apply negb_true_iff in Hc. cbn [append].
  rewrite split_crlf_cons; [| destruct l; discriminate | exact Hc].
  now rewrite (IH Hl).
Qed.

(** X12. Whatever follows the first line of the request, header lines or a
    second request, is not looked at. *)
Theorem headers_are_ignored (line rest : string) :
  no_cr line = true ->
  _parse_request_line (line ++ CRLF ++ rest) = _parse_request_line line.
Proof.
  intro H. unfold _parse_request_line.
  now rewrite (split_crlf_first _ rest H), (split_crlf_single _ H).
Qed.

Lemma has_space_app (s t : string) :
  has_space (s ++ t) = has_space s || has_space t.
Proof.
  induction s as [|c s IH]; [reflexivity|].
  cbn [append has_space]. now rewrite IH, orb_assoc.
Qed.

Lemma split_ws_from_tokens (s cur : string) :
  has_space cur = false -> Forall token (split_ws_from cur s).
Proof.
  revert cur. induction s as [|c s IH]; intros cur Hcur; cbn [split_ws_from].
  - destruct (cur =? "") eqn:E; [constructor|].
    apply String.eqb_neq in E. now repeat constructor.
  - destruct (isspace c) eqn:Hc.
    + destruct (cur =? "") eqn:E; [now apply IH|].
      apply String.eqb_neq in E. constructor; [now split | now apply IH].
    + apply IH. rewrite has_space_app, Hcur. cbn [has_space orb].
      now rewrite Hc.
Qed.

(** X13. What [_parse_request_line] returns when it returns: three tokens of
    the first line, none empty, none with whitespace in it; and it has no
    effect. *)
Theorem parsed_tokens (text method target version : string) (st st' : State) :
  _parse_request_line text st = (Normal (method, target, version), st') ->
  st' = st /\ token method /\ token target /\ token version
  /\ exists extra,
      request_line text = method :: target :: version :: extra.
Proof.
  unfold _parse_request_line, request_line.
  destruct (_ || _); [discriminate|].
  pose proof (split_ws_from_tokens (nth 0 (split_crlf text) "") ""
                                   eq_refl) as T.
  fold (split_ws (nth 0 (split_crlf text) "")) in T.
  destruct (split_ws (nth 0 (split_crlf text) "")) as [|m [|p [|v extra]]];
    cbn [length Nat.ltb Nat.leb]; try discriminate.
  cbn [nth]. intros [= <- <- <- <-].
  inversion T as [|? ? Tm T1]; subst. inversion T1 as [|? ? Tp T2]; subst.
  inversion T2 as [|? ? Tv _]; subst.
  repeat split; try apply Tm; try apply Tp; try apply Tv. now exists extra.
Qed.

End ParseRequestLine.

Section RecvRequest.

Lemma recv_loop_done (script : list recv_result) (data : list byte) :
  bytes_contains (bCRLF ++ bCRLF)%list data = true ->
  recv_loop script data = Some data.
Proof. intro H. now rewrite recv_loop_eq, H. Qed.

(** X14. Once the blank line has arrived nothing more is received: what the
    peer would send after the chunk that completes it has no effect. *)
Theorem nothing_read_past_blank_line (chunks : list (list byte))
        (data : list byte) (later1 later2 : list recv_result) :
  bytes_contains (bCRLF ++ bCRLF)%list (data ++ concat chunks)%list = true ->
  recv_loop (received chunks ++ later1) data
  = recv_loop (received chunks ++ later2) data.
Proof.
  revert data. induction chunks as [|c cs IH]; intros data H.
  - cbn [concat] in H. rewrite app_nil_r in H.
    now rewrite !recv_loop_done.
  - cbn [received map List.app]. rewrite !(recv_loop_eq (_ :: _)).
    destruct (negb _); [|reflexivity].
    destruct c as [|x c]; [reflexivity|].
    apply IH. cbn [concat] in H. now rewrite <- app_assoc.
Qed.

Lemma bytes_startswith_app (n d t : list byte) :
  bytes_startswith d n = true -> bytes_startswith (d ++ t) n = true.
Proof.
  revert d. induction n as [|a n IH]; intros d.
  - intros _. now destruct (d ++ t)%list.
  - destruct d as [|x d]; cbn; [discriminate|].
    intro K. apply andb_true_iff in K as [K1 K2].
    now rewrite K1, (IH _ K2).
Qed.

(** Bytes that hold the blank line still hold it when more arrive. *)
Lemma bytes_contains_app (n d t : list byte) :
  n <> [] -> bytes_contains n d = true -> bytes_contains n (d ++ t) = true.
Proof.
  intro Hn. induction d as [|x d IH]; cbn [bytes_contains].
  - destruct n; [now elim Hn | discriminate].
  - intro K. apply orb_true_iff in K as [K | K].
    + pose proof (bytes_startswith_app n (x :: d) t K) as K'.
      cbn [List.app] in *. cbn [bytes_contains]. now rewrite K'.
    + cbn [List.app bytes_contains]. rewrite (IH K). apply orb_true_r.
Qed.

(** X15. When the peer goes quiet before any blank line, by silence, close or
    timeout, the loop ends with all the bytes received so far, and the
    handler goes on with them as the request. *)
Theorem quiet_peer_keeps_bytes (chunks : list (list byte))
        (data : list byte) (later : list recv_result) :
  Forall (fun c => c <> []) chunks ->
  bytes_contains (bCRLF ++ bCRLF)%list (data ++ concat chunks)%list = false ->
  quiet later ->
  recv_loop (received chunks ++ later) data = Some (data ++ concat chunks)%list.
Proof.
  intros Hne. revert data.
  induction Hne as [|c cs Hc _ IH]; intros data H Hq.
  - cbn [concat received map List.app] in *. rewrite app_nil_r in *.
    rewrite recv_loop_eq, H. now destruct Hq.
  - cbn [received map List.app concat] in *.
    destruct c as [|x c]; [now elim Hc|].
    rewrite app_assoc in H.
    rewrite recv_loop_eq.
    destruct (bytes_contains (bCRLF ++ bCRLF)%list data) eqn:E.
    + exfalso. rewrite <- app_assoc in H.
      assert (N : (bCRLF ++ bCRLF)%list <> []) by discriminate.
      rewrite (bytes_contains_app _ _ _ N E) in H. discriminate H.
    + cbn [negb]. fold (received cs). rewrite (IH _ H Hq).
      now rewrite <- app_assoc.
Qed.

End RecvRequest.

(** * Further properties of path resolution *)

Section Walk.

Lemma split_char_app (c : ascii) (a rest : string) :
  split_char c (a ++ String c rest)
  = (split_char c a ++ split_char c rest)%list.
Proof.
  induction a as [|x a IH]; cbn [append split_char].
  - now rewrite Ascii.eqb_refl.
  - destruct (Ascii.eqb x c); rewrite IH; [reflexivity|].
    pose proof (split_char_nonempty c a) as N.
    now destruct (split_char c a).
Qed.

Lemma split_char_whole (c : ascii) (a : string) :
  has_char c a = false -> split_char c a = [a].
Proof.
  induction a as [|x a IH]; [reflexivity|].
  cbn [has_char split_char]. intro H.
  apply orb_false_iff in H as [Hx Ha]. now rewrite Hx, (IH Ha).
Qed.

Lemma plain_no_slash (c : string) : plain c -> has_char "/" c = false.
Proof.
  unfold plain, plain_component. intro H.
  apply andb_true_iff in H as [_ H]. now apply negb_true_iff.
Qed.

Lemma plain_not_empty (c : string) : plain c -> c <> "".
Proof.
  unfold plain, plain_component. intros H ->. discriminate H.
Qed.

(** Splitting what [join] has joined gives the components back. *)
Lemma split_join (l : list string) :
  l <> [] -> Forall plain l -> split_char "/" (Py.join "/" l) = l.
Proof.
  intros Hne Hl. induction Hl as [|x l Hx Hl IH]; [now elim Hne|].
  destruct l as [|y l].
  - apply split_char_whole. now apply plain_no_slash.
  - change (Py.join "/" (x :: y :: l))
      with (x ++ String "/" (Py.join "/" (y :: l))).
    rewrite split_char_app, split_char_whole by now apply plain_no_slash.
    cbn [List.app]. f_equal. apply IH. discriminate.
Qed.

Lemma split_slashes (k : nat) (s : string) :
  split_char "/" (slashes k ++ s) = (repeat "" k ++ split_char "/" s)%list.
Proof.
  induction k as [|k IH]; [reflexivity|].
  cbn [slashes append split_char repeat List.app]. now rewrite IH.
Qed.

Lemma normpath_loop_app (i : nat) (l1 l2 acc : list string) :
  normpath_loop i (l1 ++ l2) acc
  = normpath_loop i l2 (normpath_loop i l1 acc).
Proof.
  revert acc. induction l1 as [|c l1 IH]; intro acc; [reflexivity|].
  cbn [List.app normpath_loop].
  repeat match goal with
         | |- context [if ?b then _ else _] => destruct b
         end; apply IH.
Qed.

Lemma normpath_loop_empties (i k : nat) (acc : list string) :
  normpath_loop i (repeat "" k) acc = acc.
Proof. induction k as [|k IH]; [reflexivity | exact IH]. Qed.

(** Plain components are all kept, in their order. *)
Lemma normpath_loop_plain_app (i : nat) (cs acc : list string) :
  Forall plain cs -> normpath_loop i cs acc = (acc ++ cs)%list.
Proof.
  intro H. revert acc. induction H as [|c cs Hc _ IH]; intro acc.
  - now rewrite app_nil_r.
  - cbn [normpath_loop]. unfold plain, plain_component in Hc.
    destruct (c =? ""); [discriminate Hc|].
    destruct (c =? "."); [discriminate Hc|].
    destruct (c =? ".."); [discriminate Hc|].
    cbn [orb negb]. rewrite IH. now rewrite <- app_assoc.
Qed.

Lemma startswith_slash_join (cs : list string) :
  Forall plain cs -> startswith (Py.join "/" cs) "/" = false.
Proof.
  intro H. destruct H as [|c cs Hc _]; [reflexivity|].
  pose proof (plain_no_slash _ Hc) as N. pose proof (plain_not_empty _ Hc) as E.
  destruct c as [|x c]; [now elim E|].
  cbn [has_char] in N. apply orb_false_iff in N as [Nx _].
  assert (S : forall t, startswith (String x t) "/" = false).
  { intro t. unfold startswith. cbn [String.prefix].
    destruct (ascii_dec "/" x) as [<- | _]; [discriminate Nx | reflexivity]. }
  destruct cs; apply S.
Qed.

Lemma initial_slashes_rooted (k : nat) (s : string) :
  k = 1 \/ k = 2 -> startswith s "/" = false ->
  initial_slashes (slashes k ++ s) = k.
Proof.
  intros Hk Hs.
  assert (S : s = "" \/ exists x s', s = String x s' /\ x <> "/"%char).
  { destruct s as [|x s']; [now left|]. right. exists x, s'.
    split; [reflexivity|]. intros ->. unfold startswith in Hs.
    cbn [String.prefix] in Hs.
    destruct (ascii_dec "/" "/") as [_|N]; [|now elim N].
    destruct s'; discriminate Hs. }
  unfold initial_slashes, startswith.
  destruct S as [-> | (x & s' & -> & Hx)]; destruct Hk as [-> | ->];
    cbn [slashes append String.prefix];
    repeat (match goal with
            | |- context [ascii_dec "/"%char "/"%char] =>
                destruct (ascii_dec "/"%char "/"%char) as [_|N];
                [|now elim N]
            | |- context [ascii_dec "/"%char ?y] =>
                destruct (ascii_dec "/"%char y) as [E|_];
                [now elim Hx; symmetry|]
            end;
            cbn [String.prefix andb negb]);
    reflexivity.
Qed.

Lemma rooted_not_empty (k : nat) (comps : list string) :
  k = 1 \/ k = 2 -> (rooted k comps =? "") = false.
Proof. intros [-> | ->]; reflexivity. Qed.

(** Normalizing a path made of slashes and of components, whatever these
    are: the loop runs over the components. *)
Lemma normpath_slashes (k : nat) (s : string) :
  k = 1 \/ k = 2 -> startswith s "/" = false ->
  normpath (slashes k ++ s)
  = rooted k (normpath_loop k (split_char "/" s) []).
Proof.
  intros Hk Hs. unfold normpath.
  rewrite (initial_slashes_rooted k s Hk Hs), split_slashes,
    normpath_loop_app, normpath_loop_empties.
  fold (rooted k (normpath_loop k (split_char "/" s) [])).
  rewrite (rooted_not_empty _ _ Hk).
  now destruct Hk as [-> | ->].
Qed.

(** A normalized absolute path is left as it is. *)
Lemma normpath_rooted (k : nat) (comps : list string) :
  k = 1 \/ k = 2 -> Forall plain comps ->
  normpath (rooted k comps) = rooted k comps.
Proof.
  intros Hk Hc. unfold rooted at 1.
  rewrite normpath_slashes; [| exact Hk | now apply startswith_slash_join].
  destruct comps as [|c comps]; [reflexivity|].
  rewrite split_join; [| discriminate | exact Hc].
  now rewrite normpath_loop_plain_app.
Qed.

Lemma endswith_char_app (a t : string) (c : ascii) :
  t <> "" -> endswith_char (a ++ t) c = endswith_char t c.
Proof.
  intro Ht. induction a as [|x a IH]; [reflexivity|].
  cbn [append endswith_char].
  destruct (a ++ t) as [|y s] eqn:E; [|exact IH].
  destruct a; [now elim Ht | discriminate E].
Qed.

Lemma endswith_no_slash (s : string) :
  has_char "/" s = false -> endswith_char s "/" = false.
Proof.
  induction s as [|x s IH]; [reflexivity|].
  cbn [has_char endswith_char]. intro H.
  apply orb_false_iff in H as [Hx Hs].
  destruct s; [exact Hx | now apply IH].
Qed.

Lemma join_not_empty (c : string) (cs : list string) :
  c <> "" -> Py.join "/" (c :: cs) <> "".
Proof.
  intro Hc. destruct cs; [exact Hc|].
  change (Py.join "/" (c :: s :: cs))
    with (c ++ String "/" (Py.join "/" (s :: cs))).
  destruct c; [now elim Hc | discriminate].
Qed.

Lemma endswith_join (cs : list string) :
  cs <> [] -> Forall plain cs -> endswith_char (Py.join "/" cs) "/" = false.
Proof.
  intros Hne H. induction H as [|c cs Hc Hcs IH]; [now elim Hne|].
  destruct cs as [|d cs].
  - apply endswith_no_slash. now apply plain_no_slash.
  - change (Py.join "/" (c :: d :: cs))
      with (c ++ (String "/" "" ++ Py.join "/" (d :: cs))).
    rewrite !endswith_char_app; [apply IH; discriminate | |].
    + apply join_not_empty. inversion Hcs; subst. now apply plain_not_empty.
    + discriminate.
Qed.

Lemma endswith_rooted (k : nat) (comps : list string) :
  k = 1 \/ k = 2 -> Forall plain comps ->
  endswith_char (rooted k comps) "/" = is_nil comps.
Proof.
  intros Hk Hc. unfold rooted. destruct comps as [|c comps].
  - now destruct Hk as [-> | ->].
  - rewrite endswith_char_app.
    + apply endswith_join; [discriminate | exact Hc].
    + apply join_not_empty. inversion Hc; subst. now apply plain_not_empty.
Qed.

Lemma append_assoc (a t u : string) : (a ++ t) ++ u = a ++ (t ++ u).
Proof. induction a as [|x a IH]; [reflexivity|]. cbn. now rewrite IH. Qed.

(** Line 33 on a normalized document root, in terms of the loop of
    [normpath]: it runs over the components of the target, started from
    the components of the root. *)
Lemma candidate_walks_from_root (k : nat) (comps : list string)
        (target : string) :
  k = 1 \/ k = 2 -> Forall plain comps ->
  candidate (rooted k comps) target
  = rooted k (normpath_loop k (split_char "/" (lstrip "/" target)) comps).
Proof.
  intros Hk Hc. unfold candidate.
  pose proof (lstrip_not_slash target) as Hf.
  set (fragment := lstrip "/" target) in *.
  unfold PosixPath.join. rewrite Hf, (rooted_not_empty _ _ Hk).
  rewrite (endswith_rooted _ _ Hk Hc). cbn [orb].
  destruct comps as [|c comps]; cbn [is_nil].
  - unfold rooted at 1. cbn [Py.join String.concat].
    assert (E : slashes k ++ "" = slashes k)
      by (destruct Hk as [-> | ->]; reflexivity).
    rewrite E. now apply normpath_slashes.
  - unfold rooted at 1. rewrite !append_assoc.
    rewrite normpath_slashes.
    + change ("/" ++ fragment) with (String "/" fragment).
      rewrite split_char_app, split_join; [| discriminate | exact Hc].
      rewrite normpath_loop_app, (normpath_loop_plain_app _ _ [] Hc).
      reflexivity.
    + exact Hk.
    + set (tail := "/" ++ fragment). clearbody tail.
      pose proof (startswith_slash_join _ Hc) as S.
      pose proof (join_not_empty c comps) as N.
      inversion Hc; subst.
      specialize (N (plain_not_empty _ ltac:(eassumption))).
      destruct (Py.join "/" (c :: comps)) as [|x s]; [now elim N|].
      unfold startswith in *. cbn [append String.prefix] in *.
      destruct (ascii_dec "/" x); [|reflexivity].
      destruct s; discriminate S.
Qed.

End Walk.

Section BelowTheRoot.

Lemma prefix_app_self (a t : string) : String.prefix a (a ++ t) = true.
Proof. apply prefix_app_r, prefix_refl. Qed.

Lemma join_app (l1 l2 : list string) :
  l1 <> [] -> l2 <> [] ->
  Py.join "/" (l1 ++ l2) = Py.join "/" l1 ++ "/" ++ Py.join "/" l2.
Proof.
  intros H1 H2. induction l1 as [|x l1 IH]; [now elim H1|].
  destruct l1 as [|y l1].
  - destruct l2 as [|z l2]; [now elim H2 | reflexivity].
  - change (Py.join "/" ((x :: y :: l1) ++ l2))
      with (x ++ "/" ++ Py.join "/" ((y :: l1) ++ l2)).
    rewrite IH by discriminate.
    change (Py.join "/" (x :: y :: l1))
      with (x ++ "/" ++ Py.join "/" (y :: l1)).
    now rewrite !append_assoc.
Qed.

Lemma lstrip_slashes_app (j : nat) (s : string) :
  lstrip "/" (slashes j ++ s) = lstrip "/" s.
Proof. induction j as [|j IH]; [reflexivity | exact IH]. Qed.

Lemma lstrip_id (s : string) :
  startswith s "/" = false -> lstrip "/" s = s.
Proof.
  destruct s as [|x s]; [reflexivity|]. unfold startswith.
  cbn [String.prefix lstrip]. destruct (Ascii.eqb_spec x "/") as [-> | _];
    [| reflexivity].
  destruct (ascii_dec "/" "/") as [_|N]; [|now elim N].
  destruct s; discriminate.
Qed.

(** X17. However many slashes a target starts with, the candidate is the
    same. *)
Theorem leading_slashes_do_not_matter (docroot target : string) (j : nat) :
  candidate docroot (slashes j ++ target) = candidate docroot target.
Proof. unfold candidate. now rewrite lstrip_slashes_app. Qed.

(** X18. A target made of plain components, nothing empty, no [.] and no
    [..], resolves to the root followed by these components, which is at
    or below the root: such a target is never taken for an escape.
    Nothing in it is decoded either, a percent sign or a question mark
    being characters like the others. *)
Theorem plain_target_below_root (k j : nat) (comps cs : list string) :
  k = 1 \/ k = 2 -> Forall plain comps -> Forall plain cs ->
  let docroot := rooted k comps in
  let target := slashes j ++ Py.join "/" cs in
  candidate docroot target = rooted k (comps ++ cs)
  /\ within docroot (candidate docroot target) = true.
Proof.
  intros Hk Hc Hcs docroot target. subst docroot target.
  assert (E : candidate (rooted k comps) (slashes j ++ Py.join "/" cs)
              = rooted k (comps ++ cs)).
  { rewrite (candidate_walks_from_root _ _ _ Hk Hc), lstrip_slashes_app,
      lstrip_id by now apply startswith_slash_join.
    destruct cs as [|c cs]; [now rewrite app_nil_r|].
    rewrite split_join by (discriminate || exact Hcs).
    now rewrite normpath_loop_plain_app. }
  split; [exact E|]. rewrite E. unfold within.
  destruct cs as [|c cs].
  - rewrite app_nil_r, String.eqb_refl. reflexivity.
  - rewrite (endswith_rooted _ _ Hk Hc). apply orb_true_iff. right.
    unfold startswith. destruct comps as [|d comps]; cbn [is_nil].
    + unfold rooted. cbn [List.app Py.join String.concat].
      replace (slashes k ++ "") with (slashes k)
        by (destruct Hk as [-> | ->]; reflexivity).
      apply prefix_app_self.
    + unfold rooted. rewrite join_app by discriminate.
      rewrite <- !append_assoc. apply prefix_app_self.
Qed.

(** The document root that [abspath] yields is normalized, so that the
    [abspath] of line 34 leaves it as it is. *)
Lemma abspath_rooted (cwd0 path : string) :
  isabs cwd0 = true ->
  exists k comps,
    (k = 1 \/ k = 2) /\ Forall plain comps /\ abspath cwd0 path = rooted k comps.
Proof.
  intro Hcwd. unfold abspath. apply normpath_absolute.
  destruct (isabs path) eqn:E; [exact E|].
  unfold isabs, startswith, PosixPath.join in *. unfold startswith.
  rewrite E.
  destruct (_ || _); now apply prefix_app_r.
Qed.

Lemma isabs_rooted (k : nat) (comps : list string) :
  k = 1 \/ k = 2 -> isabs (rooted k comps) = true.
Proof.
  intros [-> | ->]; unfold isabs, startswith, rooted;
    cbn [slashes append String.prefix];
    (destruct (ascii_dec "/" "/") as [_|N]; [|now elim N]);
    try reflexivity;
    match goal with |- String.prefix "" ?s = true => now destruct s end.
Qed.

Theorem abspath_idempotent (cwd0 path : string) :
  isabs cwd0 = true ->
  abspath cwd0 (abspath cwd0 path) = abspath cwd0 path.
Proof.
  intro Hcwd.
  destruct (abspath_rooted cwd0 path Hcwd) as (k & comps & Hk & Hc & ->).
  unfold abspath. rewrite (isabs_rooted _ _ Hk).
  now apply normpath_rooted.
Qed.

(** X20. [main] serves only from a document root that exists, that is
    absolute and normalized, so that for the workers it starts the
    [abspath] of line 34 is the identity; it exits with status 1
    otherwise.  The defaults are port 1029 and [www] under the working
    directory. *)
Theorem main_serves_normalized_root (w : World) (port : option nat)
        (arg : option string) :
  isabs (cwd w) = true ->
  match main w port arg with
  | Exit status =>
      status = 1 /\ fs w (abspath (cwd w) (default "www" arg)) = None
  | Serve p docroot =>
      p = default 1029 port
      /\ docroot = abspath (cwd w) (default "www" arg)
      /\ fs w docroot <> None
      /\ isabs docroot = true
      /\ abspath (cwd w) docroot = docroot
  end.
Proof.
  intro Hcwd. unfold main.
  destruct (fs w (abspath (cwd w) (default "www" arg))) as [n|] eqn:E.
  - repeat split; [now rewrite E | | now apply abspath_idempotent].
    destruct (abspath_rooted (cwd w) (default "www" arg) Hcwd)
      as (k & comps & Hk & _ & ->).
    now apply isabs_rooted.
  - now split.
Qed.

End BelowTheRoot.

Section Beside.

Lemma prefix_split (a s : string) :
  String.prefix a s = true -> exists t, s = a ++ t.
Proof.
  revert s. induction a as [|x a IH]; intros s H; [now exists s|].
  destruct s as [|y s]; [discriminate H|]. cbn [String.prefix] in H.
  destruct (ascii_dec x y) as [<- | _]; [|discriminate H].
  destruct (IH s H) as [t ->]. now exists t.
Qed.

Variable w : World.
Variable docroot : string.

(** X2. Where the files that the handler opens are: at or below the absolute
    document root, or else beside it, under a name that continues the
    name of the root. *)
Theorem opened_below_or_beside (p : string) :
  In (EvOpen p) (handle w docroot) ->
  let root := abspath (cwd w) docroot in
  within root p = true
  \/ (endswith_char root "/" = false
      /\ exists c rest, p = root ++ String c rest /\ c <> "/"%char).
Proof.
  intros Hin root. apply opens_under_prefix in Hin. fold root in Hin.
  unfold startswith in Hin. destruct (prefix_split _ _ Hin) as [t ->].
  unfold within. destruct t as [|c rest].
  - left. assert (E : root ++ "" = root).
    { clear. induction root as [|x r IH]; [reflexivity|]. cbn. now rewrite IH. }
    now rewrite E, String.eqb_refl.
  - destruct (endswith_char root "/") eqn:Hend.
    + left. apply orb_true_iff. right. apply prefix_app_self.
    + destruct (Ascii.eqb_spec c "/") as [-> | Hc].
      * left. apply orb_true_iff. right. unfold startswith.
        change (root ++ String "/" rest) with (root ++ ("/" ++ rest)).
        rewrite <- append_assoc. apply prefix_app_self.
      * right. split; [reflexivity|]. now exists c, rest.
Qed.

End Beside.

Section Climbing.

Lemma split_join_plainly (l : list string) :
  l <> [] -> Forall (fun c => has_char "/" c = false) l ->
  split_char "/" (Py.join "/" l) = l.
Proof.
  intros Hne Hl. induction Hl as [|x l Hx Hl IH]; [now elim Hne|].
  destruct l as [|y l].
  - now apply split_char_whole.
  - change (Py.join "/" (x :: y :: l))
      with (x ++ String "/" (Py.join "/" (y :: l))).
    rewrite split_char_app, split_char_whole by exact Hx.
    cbn [List.app]. f_equal. apply IH. discriminate.
Qed.

Lemma normpath_loop_dotdot (i : nat) (rest acc : list string) :
  i <> 0 -> Forall plain acc ->
  normpath_loop i (".." :: rest) acc = normpath_loop i rest (removelast acc).
Proof.
  intros Hi Hacc. cbn [normpath_loop String.eqb Ascii.eqb Bool.eqb andb orb negb].
  apply Nat.eqb_neq in Hi. rewrite Hi. cbn [andb orb].
  destruct acc as [|a acc]; [reflexivity|]. cbn [is_nil negb andb].
  assert (Hl : plain (last (a :: acc) "")) by (now apply plain_last).
  unfold plain, plain_component in Hl.
  destruct (last (a :: acc) "" =? ".."); [|reflexivity].
  rewrite !andb_false_r in Hl. discriminate Hl.
Qed.

Lemma normpath_loop_dotdots (i n : nat) (acc : list string) :
  i <> 0 -> Forall plain acc ->
  normpath_loop i (repeat ".." n) acc = firstn (length acc - n) acc.
Proof.
  intro Hi. revert acc. induction n as [|n IH]; intros acc Hacc.
  - cbn [repeat normpath_loop]. now rewrite Nat.sub_0_r, firstn_all.
  - cbn [repeat]. rewrite (normpath_loop_dotdot _ _ _ Hi Hacc).
    rewrite IH by now apply plain_removelast.
    rewrite removelast_firstn_len, firstn_firstn, length_firstn.
    f_equal. lia.
Qed.

(** X19. A target of [n] times [..] takes the candidate [n] components up from
    the document root, and no further up than the top. *)
Theorem dotdot_climbs (k j n : nat) (comps : list string) :
  k = 1 \/ k = 2 -> Forall plain comps -> 1 <= n ->
  candidate (rooted k comps) (slashes j ++ Py.join "/" (repeat ".." n))
  = rooted k (firstn (length comps - n) comps).
Proof.
  intros Hk Hc Hn.
  rewrite (candidate_walks_from_root _ _ _ Hk Hc), lstrip_slashes_app.
  destruct n as [|n]; [lia|].
  rewrite lstrip_id by (cbn [repeat]; destruct (repeat ".." n); reflexivity).
  rewrite split_join_plainly.
  - apply f_equal, normpath_loop_dotdots; [|exact Hc].
    destruct Hk as [-> | ->]; discriminate.
  - discriminate.
  - apply Forall_forall. intros x Hx. now apply repeat_spec in Hx as ->.
Qed.

Lemma length_append (a t : string) :
  String.length (a ++ t) = String.length a + String.length t.
Proof. induction a as [|x a IH]; [reflexivity|]. cbn. now rewrite IH. Qed.

Lemma prefix_length (a s : string) :
  String.prefix a s = true -> String.length a <= String.length s.
Proof.
  intro H. destruct (prefix_split _ _ H) as [t ->].
  rewrite length_append. lia.
Qed.

Lemma join_length_grows (l1 l2 : list string) :
  l2 <> [] -> Forall plain l2 ->
  String.length (Py.join "/" l1) < String.length (Py.join "/" (l1 ++ l2)).
Proof.
  intros H2 P2.
  assert (L2 : 0 < String.length (Py.join "/" l2)).
  { destruct l2 as [|c l2]; [now elim H2|]. inversion P2; subst.
    pose proof (join_not_empty c l2 (plain_not_empty _ ltac:(eassumption))).
    destruct (Py.join "/" (c :: l2)); [congruence | cbn; lia]. }
  destruct l1 as [|x l1]; [exact L2|].
  rewrite join_app by (discriminate || exact H2).
  rewrite !length_append. lia.
Qed.

Variable w : World.

(** X4. A [GET] whose target is made of [..] only is answered by the 404,
    where the document root is not the top directory: the candidate is a
    directory above the root, and nothing of it is looked at. *)
Theorem climbing_is_refused (k j n : nat) (comps : list string)
        (text version : string) (extra : list string) :
  k = 1 \/ k = 2 -> Forall plain comps -> comps <> [] -> 1 <= n ->
  read_request w = Some text ->
  request_line text
  = "GET" :: (slashes j ++ Py.join "/" (repeat ".." n)) :: version :: extra ->
  handle w (rooted k comps)
  = ([EvSendall (not_found w 0) (sendall_ok w 0)]
       ++ on_send_failure w (sendall_ok w 0) ++ [EvClose])%list.
Proof.
  intros Hk Hc Hne Hn Hread Hline.
  apply (escape_404 w (rooted k comps) text _ version extra Hread Hline).
  rewrite (dotdot_climbs _ _ _ _ Hk Hc Hn).
  unfold abspath. rewrite (isabs_rooted _ _ Hk), (normpath_rooted _ _ Hk Hc).
  unfold startswith.
  destruct (String.prefix (rooted k comps)
              (rooted k (firstn (length comps - n) comps))) eqn:E;
    [|reflexivity].
  exfalso. apply prefix_length in E. unfold rooted in E.
  rewrite !length_append in E.
  set (m := Datatypes.length comps - n) in *.
  assert (L : String.length (Py.join "/" (firstn m comps))
              < String.length (Py.join "/" comps)).
  { assert (S : comps = (firstn m comps ++ skipn m comps)%list)
      by (symmetry; apply firstn_skipn).
    rewrite S at 2. apply join_length_grows.
    - intro Z. apply (f_equal (@Datatypes.length string)) in Z.
      rewrite length_skipn in Z. cbn [Datatypes.length] in Z.
      assert (0 < Datatypes.length comps)
        by (destruct comps; [now elim Hne | cbn; lia]).
      subst m. lia.
    - apply Forall_forall. intros x Hx.
      apply (proj1 (Forall_forall _ _) Hc). rewrite S.
      apply in_or_app. now right. }
  lia.
Qed.

End Climbing.

Section HttpDate.

Lemma bounded (P : nat -> bool) (lo len : nat) :
  forallb P (seq lo len) = true ->
  forall n, lo <= n < lo + len -> P n = true.
Proof.
  intros H n Hn. apply (proj1 (forallb_forall _ _) H). now apply in_seq.
Qed.

Lemma two_digits_length (n : nat) :
  n < 100 -> String.length (two_digits n) = 2.
Proof.
  intro H. apply Nat.eqb_eq.
  apply (bounded (fun n => String.length (two_digits n) =? 2)%nat 0 100);
    [vm_compute; reflexivity | lia].
Qed.

Lemma year_length (n : nat) :
  1000 <= n < 10 * 1000 -> String.length (str n) = 4.
Proof.
  intro H. apply Nat.eqb_eq.
  apply (bounded (fun n => String.length (str n) =? 4)%nat 1000 (9 * 1000));
    [vm_compute; reflexivity | lia].
Qed.

(** X11. [http_date] always yields the 29 characters of
    [Day, DD Mon YYYY HH:MM:SS GMT]. *)
Theorem http_date_has_29_characters (t : datetime) :
  valid_datetime t = true -> String.length (strftime_http t) = 29.
Proof.
  unfold valid_datetime. intro H.
  repeat (apply andb_true_iff in H as [H ?]).
  repeat match goal with
         | H : (_ <=? _)%nat = true |- _ => apply Nat.leb_le in H
         | H : (_ <? _)%nat = true |- _ => apply Nat.ltb_lt in H
         end.
  unfold strftime_http. rewrite !length_append.
  rewrite !two_digits_length by lia. rewrite year_length by lia.
  assert (D : String.length (day_abbr t) = 3).
  { unfold day_abbr. apply Nat.eqb_eq.
    apply (bounded (fun n => String.length
                               (nth n ["Mon"; "Tue"; "Wed"; "Thu"; "Fri";
                                       "Sat"; "Sun"] "") =? 3)%nat 0 7);
      [reflexivity | lia]. }
  assert (M : String.length (month_abbr t) = 3).
  { unfold month_abbr. apply Nat.eqb_eq.
    apply (bounded (fun n => String.length
                               (nth n ["Jan"; "Feb"; "Mar"; "Apr"; "May";
                                       "Jun"; "Jul"; "Aug"; "Sep"; "Oct";
                                       "Nov"; "Dec"] "") =? 3)%nat 0 12);
      [reflexivity | lia]. }
  rewrite D, M. reflexivity.
Qed.

End HttpDate.

(** * The further properties at work on the demonstration root *)

Lemma opens_under_prefix_witness :
  let w := Demo.world (Demo.get "/index.html") in
  In (EvOpen "/srv/www/index.html") (handle w Demo.docroot)
  /\ startswith "/srv/www/index.html" (abspath (cwd w) Demo.docroot) = true.
Proof.
  intro w.
  assert (H : In (EvOpen "/srv/www/index.html") (handle w Demo.docroot))
    by (vm_compute; tauto).
  split; [exact H|]. exact (opens_under_prefix w Demo.docroot _ H).
Defined.

Lemma escape_404_witness :
  let w := Demo.world (Demo.get "/../../etc/passwd") in
  startswith (candidate Demo.docroot "/../../etc/passwd")
             (abspath (cwd w) Demo.docroot) = false
  /\ handle w Demo.docroot = [EvSendall (not_found w 0) true; EvClose].
Proof.
  intro w. split; [reflexivity|].
  apply (escape_404 w Demo.docroot (Demo.get "/../../etc/passwd")
                    "/../../etc/passwd" "HTTP/1.1" []); reflexivity.
Defined.

Lemma missing_file_404_witness :
  let w := Demo.world (Demo.get "/missing.png") in
  fs w "/srv/www/missing.png" = None
  /\ handle w Demo.docroot
     = [EvIsdir "/srv/www/missing.png"; EvExists "/srv/www/missing.png";
        EvSendall (not_found w 0) true; EvClose].
Proof.
  intro w. split; [reflexivity|].
  apply (missing_file_404 w Demo.docroot (Demo.get "/missing.png")
                          "/missing.png" "HTTP/1.1" []); reflexivity.
Defined.

Lemma unreadable_file_500_witness :
  let w := Locked.world (Demo.get "/locked.txt") in
  fs w "/srv/www/locked.txt" = Some (RegularFile (bytes_lit "kept") false)
  /\ handle w Demo.docroot
     = [EvIsdir "/srv/www/locked.txt"; EvExists "/srv/www/locked.txt";
        EvOpen "/srv/www/locked.txt";
        EvSendall (internal_error w 0) true; EvClose]
  /\ reads_as (internal_error w 0) 500 "text/plain"
              (bytes_lit "Internal Server Error").
Proof.
  intro w. split; [reflexivity|].
  apply (unreadable_file_500 w Demo.docroot (Demo.get "/locked.txt")
                             "/locked.txt" "HTTP/1.1" [] (bytes_lit "kept"));
    reflexivity.
Defined.

Lemma unreadable_index_500_witness :
  let w := Demo.world (Demo.get "/docs") in
  fs w "/srv/www/docs/index.html" = Some Directory
  /\ handle w Demo.docroot
     = [EvIsdir "/srv/www/docs"; EvExists "/srv/www/docs/index.html";
        EvExists "/srv/www/docs/index.html";
        EvOpen "/srv/www/docs/index.html";
        EvSendall (internal_error w 0) true; EvClose].
Proof.
  intro w. split; [reflexivity|].
  apply (unreadable_index_500 w Demo.docroot (Demo.get "/docs")
                              "/docs" "HTTP/1.1" [] Directory);
    try reflexivity.
  intros content. discriminate.
Defined.

Lemma only_method_and_target_matter_witness :
  let one := [RecvData (bytes_lit (Demo.get "/index.html"))] in
  let other := [RecvData (bytes_lit ("GET   /index.html HTTP/1.0 again"
                                       ++ CRLF ++ "Host: example" ++ CRLF));
                RecvData (bytes_lit CRLF)] in
  request_line ("GET   /index.html HTTP/1.0 again"
                  ++ CRLF ++ "Host: example" ++ CRLF ++ CRLF)
  = ["GET"; "/index.html"; "HTTP/1.0"; "again"]
  /\ handle (with_inbound Demo.silent one) Demo.docroot
     = handle (with_inbound Demo.silent other) Demo.docroot.
Proof.
  intros one other. split; [reflexivity|].
  apply (only_method_and_target_matter
           Demo.silent Demo.docroot one other
           (Demo.get "/index.html")
           ("GET   /index.html HTTP/1.0 again"
              ++ CRLF ++ "Host: example" ++ CRLF ++ CRLF)
           "GET" "/index.html" "HTTP/1.1" "HTTP/1.0" [] ["again"]);
    reflexivity.
Defined.


Lemma headers_are_ignored_witness :
  no_cr "GET / HTTP/1.1" = true
  /\ _parse_request_line ("GET / HTTP/1.1" ++ CRLF ++ "Host: example" ++ CRLF)
     = _parse_request_line "GET / HTTP/1.1".
Proof.
  split; [reflexivity|].
  apply (headers_are_ignored "GET / HTTP/1.1" ("Host: example" ++ CRLF)).
  reflexivity.
Defined.

Lemma parsed_tokens_witness :
  _parse_request_line (Demo.get "/index.html") initial_state
  = (Normal ("GET", "/index.html", "HTTP/1.1"), initial_state)
  /\ initial_state = initial_state
  /\ token "GET" /\ token "/index.html" /\ token "HTTP/1.1"
  /\ exists extra,
      request_line (Demo.get "/index.html")
      = "GET" :: "/index.html" :: "HTTP/1.1" :: extra.
Proof.
  split; [reflexivity|].
  apply (parsed_tokens (Demo.get "/index.html") "GET" "/index.html" "HTTP/1.1"
                       initial_state initial_state).
  reflexivity.
Defined.

Lemma nothing_read_past_blank_line_witness :
  let chunks := [bytes_lit "GET / HT"; bytes_lit ("TP/1.1" ++ CRLF ++ CRLF)] in
  bytes_contains (bCRLF ++ bCRLF)%list ([] ++ concat chunks)%list = true
  /\ recv_loop (received chunks ++ [RecvError]) []
     = recv_loop (received chunks ++ [RecvData (bytes_lit "more")]) [].
Proof.
  intro chunks. split; [reflexivity|].
  apply (nothing_read_past_blank_line chunks [] [RecvError]
                                      [RecvData (bytes_lit "more")]).
  reflexivity.
Defined.

Lemma quiet_peer_keeps_bytes_witness :
  let chunks := [bytes_lit "GET /index.html "; bytes_lit "HTTP/1.1"] in
  quiet [RecvTimeout; RecvError]
  /\ recv_loop (received chunks ++ [RecvTimeout; RecvError]) []
     = Some (bytes_lit "GET /index.html HTTP/1.1").
Proof.
  intro chunks. split; [constructor|].
  apply (quiet_peer_keeps_bytes chunks [] [RecvTimeout; RecvError]).
  - repeat constructor; discriminate.
  - reflexivity.
  - constructor.
Defined.

Lemma demo_root_plain : Forall plain ["srv"; "www"].
Proof. repeat constructor. Qed.

Lemma plain_target_below_root_witness :
  Forall plain ["css"; "style%2e.css?v=1"]
  /\ candidate "/srv/www" "/css/style%2e.css?v=1"
     = "/srv/www/css/style%2e.css?v=1"
  /\ within "/srv/www" (candidate "/srv/www" "/css/style%2e.css?v=1") = true.
Proof.
  assert (P : Forall plain ["css"; "style%2e.css?v=1"])
    by (repeat constructor).
  split; [exact P|].
  apply (plain_target_below_root 1 1 ["srv"; "www"]
                                 ["css"; "style%2e.css?v=1"]);
    [now left | exact demo_root_plain | exact P].
Defined.

Lemma main_serves_normalized_root_witness :
  isabs (cwd Demo.silent) = true
  /\ main Demo.silent None None = Serve 1029 "/srv/www"
  /\ match main Demo.silent None None with
     | Exit status =>
         status = 1
         /\ fs Demo.silent (abspath (cwd Demo.silent) (default "www" None))
            = None
     | Serve p docroot =>
         p = default 1029 None
         /\ docroot = abspath (cwd Demo.silent) (default "www" None)
         /\ fs Demo.silent docroot <> None
         /\ isabs docroot = true
         /\ abspath (cwd Demo.silent) docroot = docroot
     end.
Proof.
  split; [reflexivity|]. split; [reflexivity|].
  apply (main_serves_normalized_root Demo.silent None None). reflexivity.
Defined.

Lemma opened_below_or_beside_witness :
  let w := Demo.world (Demo.get "/../www-private/key") in
  let root := abspath (cwd w) Demo.docroot in
  In (EvOpen "/srv/www-private/key") (handle w Demo.docroot)
  /\ (within root "/srv/www-private/key" = true
      \/ (endswith_char root "/" = false
          /\ exists c rest,
              "/srv/www-private/key" = root ++ String c rest
              /\ c <> "/"%char)).
Proof.
  intros w root.
  assert (H : In (EvOpen "/srv/www-private/key") (handle w Demo.docroot))
    by (vm_compute; tauto).
  split; [exact H|]. exact (opened_below_or_beside w Demo.docroot _ H).
Defined.

Lemma dotdot_climbs_witness :
  1 <= 3
  /\ candidate (rooted 1 ["srv"; "www"]) ("/" ++ Py.join "/" (repeat ".." 3))
     = rooted 1 (firstn (2 - 3) ["srv"; "www"]).
Proof.
  split; [lia|].
  apply (dotdot_climbs 1 1 3 ["srv"; "www"]);
    [now left | exact demo_root_plain | lia].
Defined.

Lemma climbing_is_refused_witness :
  let w := Demo.world (Demo.get "/../..") in
  request_line (Demo.get "/../..") = ["GET"; "/../.."; "HTTP/1.1"]
  /\ handle w (rooted 1 ["srv"; "www"])
     = [EvSendall (not_found w 0) true; EvClose].
Proof.
  intro w. split; [reflexivity|].
  apply (climbing_is_refused w 1 1 2 ["srv"; "www"]
                             (Demo.get "/../..") "HTTP/1.1" []);
    [now left | exact demo_root_plain | discriminate | lia
    | reflexivity | reflexivity].
Defined.

Lemma http_date_has_29_characters_witness :
  valid_datetime Demo.now = true
  /\ String.length (strftime_http Demo.now) = 29.
Proof.
  split; [reflexivity|].
  apply (http_date_has_29_characters Demo.now). reflexivity.
Defined.

(** * Normalization against the specification's collapse *)

Section Collapse.

Lemma rev_removelast (l : list string) :
  List.rev (removelast l) = tl (List.rev l).
Proof.
  destruct l as [|a l]; [reflexivity|].
  destruct (@exists_last _ (a :: l)) as [l' [x E]]; [discriminate|].
  rewrite E, removelast_last, rev_unit. reflexivity.
Qed.

Lemma collapse_from_app (comps l1 l2 : list string) :
  collapse_from comps (l1 ++ l2) = collapse_from (collapse_from comps l1) l2.
Proof.
  unfold collapse_from. now rewrite fold_left_app, rev_involutive.
Qed.

Lemma collapse_from_empty (comps rest : list string) :
  collapse_from comps ("" :: rest) = collapse_from comps rest.
Proof. reflexivity. Qed.

Lemma collapse_from_empties (comps rest : list string) (j : nat) :
  collapse_from comps (repeat "" j ++ rest) = collapse_from comps rest.
Proof. induction j as [|j IH]; [reflexivity | exact IH]. Qed.

(** On an absolute path the loop of [normpath] is the collapse. *)
Lemma normpath_loop_collapse (i : nat) (segments : list string) :
  i <> 0 ->
  Forall (fun x => has_char "/" x = false) segments ->
  forall comps,
    Forall plain comps ->
    normpath_loop i segments comps = collapse_from comps segments.
Proof.
  intros Hi Hs. induction Hs as [|seg rest Hseg _ IH]; intros comps Hc.
  - unfold collapse_from. cbn [fold_left normpath_loop].
    now rewrite rev_involutive.
  - assert (step : forall comps',
               Forall plain comps' ->
               normpath_loop i (seg :: rest) comps
               = normpath_loop i rest comps' ->
               collapse_step (List.rev comps) seg = List.rev comps' ->
               normpath_loop i (seg :: rest) comps
               = collapse_from comps (seg :: rest)).
    { intros comps' Hp E1 E2. rewrite E1, (IH _ Hp).
      unfold collapse_from. cbn [fold_left]. now rewrite E2. }
    destruct (seg =? "") eqn:E0.
    { apply (step comps Hc); [| unfold collapse_step; now rewrite E0].
      cbn [normpath_loop]. now rewrite E0. }
    destruct (seg =? ".") eqn:E1.
    { apply (step comps Hc); [| unfold collapse_step; now rewrite E0, E1].
      cbn [normpath_loop]. now rewrite E0, E1. }
    destruct (seg =? "..") eqn:E2.
    + apply String.eqb_eq in E2. subst seg.
      apply (step (removelast comps)); [now apply plain_removelast | |].
      * now apply normpath_loop_dotdot.
      * unfold collapse_step. cbn [String.eqb Ascii.eqb Bool.eqb orb andb].
        now rewrite rev_removelast.
    + apply (step (comps ++ [seg])%list).
      * apply Forall_app. split; [exact Hc|]. constructor; [|constructor].
        unfold plain, plain_component. now rewrite E0, E1, E2, Hseg.
      * cbn [normpath_loop]. now rewrite E0, E1, E2.
      * unfold collapse_step. rewrite E0, E1, E2. cbn [orb].
        now rewrite rev_unit.
Qed.

Lemma collapse_plain (segments : list string) :
  Forall (fun x => has_char "/" x = false) segments ->
  Forall plain (collapse segments).
Proof.
  intro H. unfold collapse.
  rewrite <- (normpath_loop_collapse 1 segments) by (auto; discriminate).
  apply normpath_loop_plain; [discriminate | exact H | constructor].
Qed.

(** X16. Line 33 on a normalized document root: the candidate is the root
    with the segments of the target collapsed onto its components.  Empty
    segments and [.] are passed over, an ordinary segment is appended,
    and a [..] takes away the last component, be it one of the root. *)
Theorem candidate_collapses_from_root (k : nat) (comps : list string)
        (target : string) :
  k = 1 \/ k = 2 -> Forall plain comps ->
  candidate (rooted k comps) target
  = rooted k (collapse_from comps (split_char "/" target)).
Proof.
  intros Hk Hc. rewrite (candidate_walks_from_root _ _ _ Hk Hc).
  rewrite normpath_loop_collapse;
    [| destruct Hk as [-> | ->]; discriminate
     | apply split_char_no_sep | exact Hc].
  destruct (lstrip_slashes target) as [j E]. rewrite E at 2.
  now rewrite split_slashes, collapse_from_empties.
Qed.

End Collapse.

Lemma candidate_collapses_from_root_witness :
  rooted 1 ["srv"; "www"] = "/srv/www"
  /\ Forall plain ["srv"; "www"]
  /\ candidate "/srv/www" "/a/./../b//c" = "/srv/www/b/c"
  /\ candidate "/srv/www" "/css/../../x" = "/srv/x".
Proof.
  split; [reflexivity|]. split; [exact demo_root_plain|]. split.
  - exact (candidate_collapses_from_root 1 ["srv"; "www"] "/a/./../b//c"
             (or_introl eq_refl) demo_root_plain).
  - exact (candidate_collapses_from_root 1 ["srv"; "www"] "/css/../../x"
             (or_introl eq_refl) demo_root_plain).
Defined.

(** * Step 1 of the path resolution *)

Section StepOne.

Lemma startswith_cons (a b : ascii) (s p : string) :
  startswith (String a s) (String b p) = Ascii.eqb a b && startswith s p.
Proof.
  unfold startswith. cbn [String.prefix].
  destruct (ascii_dec b a) as [-> | N].
  - now rewrite Ascii.eqb_refl.
  - destruct (Ascii.eqb_spec a b) as [-> | _]; [now elim N | reflexivity].
Qed.

Lemma startswith_empty (s : string) : startswith s "" = true.
Proof. now destruct s. Qed.

Lemma endswith_split (s : string) (c : ascii) :
  endswith_char s c = true -> exists d, s = d ++ String c "".
Proof.
  induction s as [|x s IH]; [discriminate|]. cbn [endswith_char].
  destruct s as [|y s].
  - intro H. apply Ascii.eqb_eq in H. subst x. now exists "".
  - intro H. destruct (IH H) as [d E]. exists (String x d).
    cbn [append]. now rewrite <- E.
Qed.

Lemma isabs_cons (docroot : string) :
  isabs docroot = true -> exists r, docroot = String "/" r.
Proof.
  destruct docroot as [|c r]; [discriminate|].
  unfold isabs. rewrite startswith_cons. intro H.
  apply andb_true_iff in H as [H _]. apply Ascii.eqb_eq in H. subst c.
  now exists r.
Qed.

(** What is appended to an absolute root does not change the number of
    its leading slashes, as long as it adds none to a root made of
    slashes only. *)
Lemma initial_slashes_join (docroot fragment : string) :
  isabs docroot = true -> startswith fragment "/" = false ->
  initial_slashes (PosixPath.join docroot fragment) = initial_slashes docroot.
Proof.
  intros Habs Hf.
  rewrite join_relative; [| intros ->; discriminate Habs | exact Hf].
  destruct (isabs_cons _ Habs) as [r ->].
  destruct r as [|c1 r1].
  - change (endswith_char "/" "/") with true. cbn [append].
    unfold initial_slashes.
    rewrite !startswith_cons, !startswith_empty, Hf. reflexivity.
  - destruct r1 as [|c2 r2].
    + destruct (Ascii.eqb_spec c1 "/") as [-> | N].
      * change (endswith_char "//" "/") with true. cbn [append].
        unfold initial_slashes.
        rewrite !startswith_cons, !startswith_empty, Hf. reflexivity.
      * set (tail := (if endswith_char _ _ then "" else "/") ++ fragment).
        cbn [append]. unfold initial_slashes.
        rewrite !startswith_cons.
        apply Ascii.eqb_neq in N. now rewrite N.
    + set (tail := (if endswith_char _ _ then "" else "/") ++ fragment).
      cbn [append]. unfold initial_slashes.
      rewrite !startswith_cons, !startswith_empty. reflexivity.
Qed.

Lemma initial_slashes_absolute (p : string) :
  isabs p = true -> initial_slashes p = 1 \/ initial_slashes p = 2.
Proof.
  unfold isabs, initial_slashes. intros ->. destruct (_ && _); auto.
Qed.

Lemma normpath_of_absolute (p : string) :
  isabs p = true ->
  normpath p
  = rooted (initial_slashes p)
           (normpath_loop (initial_slashes p) (split_char "/" p) []).
Proof.
  intro Habs. pose proof (initial_slashes_absolute p Habs) as Hk.
  unfold normpath. destruct (isabs_cons _ Habs) as [r ->].
  cbn [String.eqb]. cbv zeta.
  fold (rooted (initial_slashes (String "/" r))
               (normpath_loop (initial_slashes (String "/" r))
                              (split_char "/" (String "/" r)) [])).
  now rewrite (rooted_not_empty _ _ Hk).
Qed.

Lemma segments_of_join (docroot fragment : string) :
  docroot <> "" -> startswith fragment "/" = false ->
  collapse (split_char "/" (PosixPath.join docroot fragment))
  = collapse (split_char "/" docroot ++ split_char "/" fragment)%list.
Proof.
  intros Hr Hf. rewrite (join_relative _ _ Hr Hf).
  destruct (endswith_char docroot "/") eqn:E.
  - destruct (endswith_split _ _ E) as [d ->].
    rewrite append_assoc. cbn [append].
    rewrite !split_char_app. cbn [split_char].
    unfold collapse. rewrite <- app_assoc.
    rewrite (collapse_from_app [] (split_char "/" d) (_ ++ _)).
    rewrite (collapse_from_app [] (split_char "/" d) (split_char "/" fragment)).
    reflexivity.
  - change ("/" ++ fragment) with (String "/" fragment).
    now rewrite split_char_app.
Qed.

(** C4. Every leading slash of the target is stripped, not one only: a
    target is some slashes followed by a fragment that starts with none,
    and whatever the number of these slashes, the candidate of line 33
    is the segments of the document root followed by those of the
    fragment, collapsed: empty segments and [.] dropped, each [..] taking
    away the component before it.  The fragment is thus joined onto the
    root, which it never replaces; the candidate is an absolute path and
    none of its components is empty, [.] or [..].  It is computed from
    the two strings alone. *)
Theorem candidate_resolution (docroot fragment : string) (j : nat) :
  isabs docroot = true ->
  startswith fragment "/" = false ->
  let target := slashes j ++ fragment in
  candidate docroot target = resolved docroot fragment
  /\ isabs (candidate docroot target) = true
  /\ Forall (fun c => plain_component c = true)
            (collapse (split_char "/" docroot ++ split_char "/" fragment)).
Proof.
  intros Habs Hf target. subst target.
  assert (Hr : docroot <> "") by (intros ->; discriminate Habs).
  pose proof (initial_slashes_absolute _ Habs) as Hk.
  assert (Hs : Forall (fun x => has_char "/" x = false)
                      (split_char "/" docroot ++ split_char "/" fragment)).
  { apply Forall_app. split; apply split_char_no_sep. }
  assert (E : candidate docroot (slashes j ++ fragment)
              = resolved docroot fragment).
  { unfold candidate, resolved.
    rewrite lstrip_slashes_app, (lstrip_id _ Hf).
    assert (Hj : isabs (PosixPath.join docroot fragment) = true).
    { rewrite (join_relative _ _ Hr Hf). unfold isabs, startswith in *.
      now apply prefix_app_r. }
    rewrite (normpath_of_absolute _ Hj), (initial_slashes_join _ _ Habs Hf).
    unfold rooted. f_equal. f_equal.
    rewrite normpath_loop_collapse;
      [| destruct Hk as [-> | ->]; discriminate
       | apply split_char_no_sep | constructor].
    now apply segments_of_join. }
  split; [exact E|]. split.
  - rewrite E. unfold resolved.
    apply (isabs_rooted (initial_slashes docroot) _ Hk).
  - now apply collapse_plain.
Qed.

End StepOne.

Lemma candidate_resolution_witness :
  isabs "/srv/www" = true
  /\ startswith "a/./b/../index.html" "/" = false
  /\ candidate "/srv/www" "//a/./b/../index.html" = "/srv/www/a/index.html"
  /\ isabs (candidate "/srv/www" "//a/./b/../index.html") = true
  /\ Forall (fun c => plain_component c = true) ["srv"; "www"; "a"; "index.html"].
Proof.
  split; [reflexivity|]. split; [reflexivity|].
  exact (candidate_resolution "/srv/www" "a/./b/../index.html" 2
                              eq_refl eq_refl).
Defined.

(** * Error responses *)

Section ErrorResponses.

Lemma read_line_eq (x y : byte) (tl : list byte) :
  Byte.eqb x bCR = false ->
  read_line (x :: y :: tl)
  = match read_line (y :: tl) with
    | Some (line, rest) => Some (x :: line, rest)
    | None => None
    end.
Proof.
  intro H.
  change (read_line (x :: y :: tl))
    with (if Byte.eqb x bCR && Byte.eqb y bLF then Some ([], tl)
          else match read_line (y :: tl) with
               | Some (line, rest) => Some (x :: line, rest)
               | None => None
               end).
  now rewrite H.
Qed.

Lemma read_line_first (line rest : list byte) :
  bytes_no_cr line = true ->
  read_line (line ++ bCR :: bLF :: rest) = Some (line, rest).
Proof.
  induction line as [|x l IH]; intro H; [reflexivity|].
  cbn [bytes_no_cr forallb] in H. apply andb_true_iff in H as [Hx Hl].
  apply negb_true_iff in Hx.
  change ((x :: l) ++ bCR :: bLF :: rest)%list
    with (x :: (l ++ bCR :: bLF :: rest))%list.
  specialize (IH Hl). revert IH.
  destruct (l ++ bCR :: bLF :: rest)%list as [|y tl] eqn:E; intro IH.
  - destruct l; discriminate E.
  - now rewrite (read_line_eq _ _ _ Hx), IH.
Qed.

Lemma status_text_no_cr (code : nat) : no_cr (status_text code) = true.
Proof.
  unfold status_text.
  now rewrite !no_cr_app, str_no_cr, reason_of_no_cr.
Qed.

(** The status code on the first line of a response is the one it was
    written with, whatever the headers and the body are. *)
Lemma status_of_response (code : nat) (body : list byte)
      (ctype date : string) :
  status_of (response_bytes code body ctype date) = Some code.
Proof.
  unfold status_of, response_bytes. rewrite encode_header.
  cbn [map flat_map]. unfold bCRLF at 1. rewrite <- !app_assoc.
  cbn [List.app].
  rewrite read_line_first
    by (apply encode_utf8_no_cr, status_text_no_cr).
  apply status_code_of_line.
Qed.

Variable w : World.

Lemma error_response_bytes (code : nat) (phrase : string) (n : nat) :
  (code, phrase) = (404, "Not Found")
  \/ (code, phrase) = (405, "Method Not Allowed")
  \/ (code, phrase) = (500, "Internal Server Error") ->
  error_response
    (response_bytes code (bytes_lit phrase) "text/plain" (date_at w n))
    code phrase.
Proof.
  intro H. eexists. split.
  - apply parse_response_bytes; [apply date_no_cr | reflexivity].
  - unfold Client.content_length, Client.content_type.
    cbn [Client.headers Client.body].
    rewrite content_length_of_header, content_type_of_header,
      nat_of_bytes_str.
    destruct H as [[= -> ->] | [[= -> ->] | [= -> ->]]];
      repeat split; reflexivity.
Qed.

Variable docroot : string.

(** C10. Whatever the handler sends either has status 200 on its status
    line, or is an error response: it reads as a 404, a 405 or a 500,
    its status line carries the reason phrase of that status ([Not
    Found], [Method Not Allowed], [Internal Server Error]), its content
    type is [text/plain], and its body is the bytes of that same reason
    phrase, counted by its [Content-Length]. *)
Theorem error_body_is_reason_phrase (data : list byte) (ok : bool) :
  In (EvSendall data ok) (handle w docroot) ->
  status_of data = Some 200
  \/ error_response data 404 "Not Found"
  \/ error_response data 405 "Method Not Allowed"
  \/ error_response data 500 "Internal Server Error".
Proof.
  apply (handle_sends w
           (fun data =>
              status_of data = Some 200
              \/ error_response data 404 "Not Found"
              \/ error_response data 405 "Method Not Allowed"
              \/ error_response data 500 "Internal Server Error")).
  - intros n body p. left. apply status_of_response.
  - intro n. right; left.
    apply (error_response_bytes 404 "Not Found" n). now left.
  - intro n. right; right; left.
    apply (error_response_bytes 405 "Method Not Allowed" n). now right; left.
  - intro n. right; right; right.
    apply (error_response_bytes 500 "Internal Server Error" n).
    now right; right.
Qed.

End ErrorResponses.

Lemma error_body_is_reason_phrase_witness :
  let w := Demo.world (Demo.get "/missing.png") in
  let data := not_found w 0 in
  In (EvSendall data true) (handle w Demo.docroot)
  /\ status_of data = Some 404
  /\ (status_of data = Some 200
      \/ error_response data 404 "Not Found"
      \/ error_response data 405 "Method Not Allowed"
      \/ error_response data 500 "Internal Server Error").
Proof.
  intros w data.
  assert (H : In (EvSendall data true) (handle w Demo.docroot))
    by (vm_compute; tauto).
  split; [exact H|]. split; [reflexivity|].
  exact (error_body_is_reason_phrase w Demo.docroot data true H).
Defined.
